(** * Kademlia DHT: the server orchestration layer ([kademlia/network.py])

    A shallow embedding of [Server] and [check_dht_value_type], and the
    properties of its public operations [get], [set], [set_digest],
    [bootstrap] and of the periodic maintenance task.

    The modules [kademlia.protocol], [kademlia.crawling], [kademlia.storage],
    [kademlia.node] and [kademlia.utils] are collaborators of the server: they
    enter the development as interfaces (type classes), and every call the
    server makes to one of them is recorded in a trace of events. *)

From Stdlib Require Import ZArith List String Bool Lia.
From Stdlib.Strings Require Import Byte.
Import ListNotations.
Set Warnings "-register-all".
Local Open Scope Z_scope.
Local Open Scope string_scope.

(** ** Python values and their types *)

(** The types of the values that reach the server.  [TClass name base] is a
    class declared by a user as [class name(base)]. *)
Inductive PyType : Type :=
| TObject
| TNoneType
| TInt
| TBool
| TFloat
| TStr
| TBytes
| TTuple
| TList
| TClass (name : string) (base : PyType).

Fixpoint PyType_eqb (t u : PyType) : bool :=
  match t, u with
  | TObject, TObject | TNoneType, TNoneType | TInt, TInt | TBool, TBool
  | TFloat, TFloat | TStr, TStr | TBytes, TBytes | TTuple, TTuple
  | TList, TList => true
  | TClass n b, TClass m c => String.eqb n m && PyType_eqb b c
  | _, _ => false
  end.

(** [issubclass(t, u)]: [u] is reached from [t] along the base classes;
    [bool] derives from [int], everything derives from [object]. *)
Fixpoint issubclass (t u : PyType) : bool :=
  PyType_eqb t u ||
  match t with
  | TObject => false
  | TBool => PyType_eqb TInt u || PyType_eqb TObject u
  | TClass _ b => issubclass b u
  | _ => PyType_eqb TObject u
  end.

Definition strict_subclass (t u : PyType) : bool :=
  issubclass t u && negb (PyType_eqb t u).

(** A float is carried as its IEEE-754 binary64 bit pattern; the server never
    computes with it.  [VInstance cls base] is an instance of a user class
    [cls] whose base class is the type of [base], holding the data of [base]. *)
Inductive Value : Type :=
| VNone
| VBool (b : bool)
| VInt (z : Z)
| VFloat (bits : Z)
| VStr (s : string)
| VBytes (b : list byte)
| VTuple (items : list Value)
| VList (items : list Value)
| VObject
| VInstance (cls : string) (base : Value).

(** [type(value)] *)
Fixpoint type_of (v : Value) : PyType :=
  match v with
  | VNone => TNoneType
  | VBool _ => TBool
  | VInt _ => TInt
  | VFloat _ => TFloat
  | VStr _ => TStr
  | VBytes _ => TBytes
  | VTuple _ => TTuple
  | VList _ => TList
  | VObject => TObject
  | VInstance cls base => TClass cls (type_of base)
  end.

(** [isinstance(value, t)] *)
Definition isinstance (v : Value) (t : PyType) : bool :=
  issubclass (type_of v) t.

(** [bool(value)]: the truth value Python gives to [value] in [if], [not] and
    [any] (a user class inherits the truth value of its base data). *)
Fixpoint truthy (v : Value) : bool :=
  match v with
  | VNone => false
  | VBool b => b
  | VInt z => negb (Z.eqb z 0)
  | VFloat bits => negb (Z.eqb (Z.land bits (2 ^ 63 - 1)) 0)
  | VStr s => negb (String.eqb s "")
  | VBytes b => negb (Nat.eqb (List.length b) 0)
  | VTuple items => negb (Nat.eqb (List.length items) 0)
  | VList items => negb (Nat.eqb (List.length items) 0)
  | VObject => true
  | VInstance _ base => truthy base
  end.

Definition is_none (v : Value) : bool :=
  match v with VNone => true | _ => false end.

(** ** [check_dht_value_type] (network.py, lines 164-172) *)

Definition typeset : list PyType := [TInt; TFloat; TBool; TStr; TBytes].

(** [type(value) in typeset]: membership compares the type objects. *)
Definition check_dht_value_type (value : Value) : bool :=
  existsb (PyType_eqb (type_of value)) typeset.

(** ** Identifiers, nodes and XOR distance *)

Definition Bytes : Type := list byte.

(** The big-endian unsigned integer a byte string denotes. *)
Definition int_of_bytes (b : Bytes) : Z :=
  fold_left (fun acc x => acc * 256 + Z.of_N (Byte.to_N x)) b 0.

Definition Addr : Type := (string * Z)%type.

Module Node.

(** Modelled from the spec: [kademlia.node.Node] is not part of the sources
    at hand.  A contact is a triple (id, ip, port); a contact without
    address is a pure lookup target; the distance of two contacts is the
    bitwise XOR of their ids read as big-endian unsigned integers. *)
Record t : Type := new { id : Bytes; ip : option string; port : option Z }.

Definition target (node_id : Bytes) : t :=
  {| id := node_id; ip := None; port := None |}.

Definition long_id (n : t) : Z := int_of_bytes (id n).

Definition distance_to (n other : t) : Z :=
  Z.lxor (long_id n) (long_id other).

End Node.

(** ** Exceptions *)

Inductive Exn : Type :=
| TypeError (msg : string)
| ValueError (msg : string)
| AttributeError (msg : string).

(** [max(xs)] of a list of integers; Python raises [ValueError] on an empty
    sequence. *)
Definition py_max (xs : list Z) : Exn + Z :=
  match xs with
  | [] => inl (ValueError "max() arg is an empty sequence")
  | x :: rest => inr (fold_left Z.max rest x)
  end.

(** ** The state-and-exception monad

    A computation runs on a state, and either returns a value or raises; the
    state reached when the exception is raised is kept. *)

Definition M (S A : Type) : Type := S -> (Exn + A) * S.

Definition ret {S A : Type} (a : A) : M S A := fun s => (inr a, s).

Definition raise {S A : Type} (e : Exn) : M S A := fun s => (inl e, s).

Definition bind {S A B : Type} (c : M S A) (k : A -> M S B) : M S B :=
  fun s =>
    match c s with
    | (inr a, s') => k a s'
    | (inl e, s') => (inl e, s')
    end.

Definition gets {S A : Type} (f : S -> A) : M S A := fun s => (inr (f s), s).

Definition modify {S : Type} (f : S -> S) : M S unit := fun s => (inr tt, f s).

Definition lift_exn {S A : Type} (r : Exn + A) : M S A := fun s => (r, s).

Declare Scope py_scope.
Delimit Scope py_scope with py.
Notation "x <- c ;; k" := (bind c (fun x => k))
  (at level 61, c at next level, right associativity) : py_scope.
Notation "c ;; k" := (bind c (fun _ => k))
  (at level 61, right associativity) : py_scope.
Local Open Scope py_scope.

(** [for x in xs: results.append(body(x))] *)
Fixpoint for_each {S A B : Type} (xs : list A) (body : A -> M S B)
  : M S (list B) :=
  match xs with
  | [] => ret []
  | x :: rest => y <- body x ;; ys <- for_each rest body ;; ret (y :: ys)
  end.

(** [await asyncio.gather] over a list of coroutines: they are run to
    completion one after the other in the order given, which is the order of
    the results. *)
Fixpoint gather {S A : Type} (cos : list (M S A)) : M S (list A) :=
  match cos with
  | [] => ret []
  | co :: rest => x <- co ;; xs <- gather rest ;; ret (x :: xs)
  end.

(** [[x for x in xs if x is not None]] *)
Fixpoint not_none {A : Type} (xs : list (option A)) : list A :=
  match xs with
  | [] => []
  | Some x :: rest => x :: not_none rest
  | None :: rest => not_none rest
  end.

(** Every exception the computation can raise satisfies [ok]. *)
Definition raises_only {S A : Type} (ok : Exn -> Prop) (c : M S A) : Prop :=
  forall s e, fst (c s) = inl e -> ok e.

Definition not_type_error (e : Exn) : Prop :=
  match e with TypeError _ => False | _ => True end.

(** ** Collaborators of the server *)

(** [kademlia.utils.digest]: the 160-bit hash of a key.  The key is taken to
    be one [digest] can encode: the call returns. *)
Class Hashing : Type := { digest : Value -> Bytes }.

(** Modelled from the spec: the storage backend ([kademlia.storage]) is an
    external collaborator, a mapping from digest to value with [get] (the
    value, or [None]), insert (last write wins) and the enumeration of the
    entries older than a given age. *)
Class StorageBackend (St : Type) : Type := {
  storage_get : St -> Bytes -> Value;
  storage_setitem : St -> Bytes -> Value -> St;
  storage_iter_older_than : St -> Z -> list (Bytes * Value);
  ForgetfulStorage : St
}.

(** The arguments a spider is constructed with:
    [SpiderCrawl(protocol, node, peers, ksize, alpha)]. *)
Record SpiderCrawl : Type := {
  sp_node : Node.t;
  sp_peers : list Node.t;
  sp_ksize : Z;
  sp_alpha : Z
}.

Inductive SpiderKind : Type := NodeSpiderCrawl | ValueSpiderCrawl.

(** The protocol layer and the lookup engine ([kademlia.protocol],
    [kademlia.crawling]).  The router is read synchronously.  Every awaited
    call runs on the protocol state together with the storage, which the
    protocol shares with the server ([protocol_class(node, storage, ksize)]):
    while the server awaits, the network and the handlers of incoming
    requests may change both.  An awaited call is taken to resolve: a call
    that raises is outside this model.  What [call_store] resolves to is
    left open here; [is_rpc_outcome] below gives its shape. *)
Class ProtocolLayer (St P : Type) : Type := {
  router_find_neighbors : P -> Node.t -> option Z -> list Node.t;
  get_refresh_ids : P -> list Bytes * P;
  ping : Addr -> Bytes -> St * P -> (bool * Bytes) * (St * P);
  call_store : Node.t -> Bytes -> Value -> St * P -> Value * (St * P);
  node_spider_find : SpiderCrawl -> St * P -> list Node.t * (St * P);
  value_spider_find : SpiderCrawl -> St * P -> Value * (St * P)
}.

(** ** Events: what the server asks of its collaborators *)

Inductive LogLevel : Type := DEBUG | INFO | WARNING.

Inductive Coroutine : Type := Co_refresh_table.

Inductive Callback : Type := Cb_refresh_table.

(** [loop.call_later(delay, callback)] *)
Record TimerHandle : Type := { delay : Z; callback : Callback }.

Inductive Event : Type :=
| EvLog (level : LogLevel) (fmt : string)
| EvDigest (key : Value)
| EvStorageGet (dkey : Bytes)
| EvStorageSet (dkey : Bytes) (value : Value)
| EvIterOlderThan (seconds : Z)
| EvFindNeighbors (node : Node.t) (k : option Z)
| EvGetRefreshIds
| EvSpiderNew (kind : SpiderKind) (spider : SpiderCrawl)
| EvSpiderFind (kind : SpiderKind) (spider : SpiderCrawl)
| EvCallStore (node : Node.t) (dkey : Bytes) (value : Value)
| EvPing (addr : Addr) (sender : Bytes)
| EvEnsureFuture (co : Coroutine)
| EvCallLater (timer : TimerHandle).

(** The calls through which datagrams leave the node: a spider's [find], a
    [store] call and a [ping]. *)
Definition transmits (e : Event) : bool :=
  match e with
  | EvSpiderFind _ _ | EvCallStore _ _ _ | EvPing _ _ => true
  | _ => false
  end.

Definition creates_spider (e : Event) : bool :=
  match e with EvSpiderNew _ _ => true | _ => false end.

Definition consults_router (e : Event) : bool :=
  match e with EvFindNeighbors _ _ | EvGetRefreshIds => true | _ => false end.

Definition computes_digest (e : Event) : bool :=
  match e with EvDigest _ => true | _ => false end.

Definition writes_storage (e : Event) : bool :=
  match e with EvStorageSet _ _ => true | _ => false end.

(** An event other than reading the local storage, hashing and logging. *)
Definition leaves_node (e : Event) : bool :=
  transmits e || creates_spider e || consults_router e.

(** ** [class Server] (network.py, lines 15-161) *)

Module Server.

(** The parameters of [__init__] after [self], with their defaults
    (line 18). *)
Inductive PyDefault : Type := DefaultInt (z : Z) | DefaultNone.

Definition default_ksize : Z := 20.
Definition default_alpha : Z := 3.

Definition __init___params : list (string * PyDefault) :=
  [("ksize", DefaultInt default_ksize); ("alpha", DefaultInt default_alpha);
   ("node_id", DefaultNone); ("storage", DefaultNone)].

(** A call [Server(name=...)] is accepted when [name] is a parameter;
    Python raises [TypeError] for any other keyword. *)
Definition accepts_keyword (name : string) : bool :=
  existsb (String.eqb name) (map fst __init___params).

Fixpoint bind_keywords (names : list string) : Exn + unit :=
  match names with
  | [] => inr tt
  | name :: rest =>
      if accepts_keyword name then bind_keywords rest
      else inl (TypeError "__init__() got an unexpected keyword argument")
  end.

(** The delay of the maintenance timer and the age of the entries that are
    published again: the literal 3600 of lines 54 and 67. *)
Definition refresh_delay : Z := 3600.
Definition republish_age : Z := 3600.

Section Server.

Context {St P : Type}.
Context {hashing : Hashing}.
Context {backend : StorageBackend St}.
Context {layer : ProtocolLayer St P}.

(** The fields of a server.  [protocol] is [None] until [listen] has
    created the endpoint.  ([transport] and [save_state_loop] belong to
    [listen], [stop] and [save_state_regularly] and are left out.) *)
Record t : Type := mk {
  ksize : Z;
  alpha : Z;
  storage : St;
  node : Node.t;
  protocol : option P;
  refresh_loop : option TimerHandle
}.

(** A server within its event loop: the coroutines scheduled with
    [ensure_future], the timers set with [call_later], and the trace of
    the events so far. *)
Record Machine : Type := {
  self : t;
  ready : list Coroutine;
  timers : list TimerHandle;
  trace : list Event
}.

Definition set_storage (st : St) (s : t) : t :=
  mk (ksize s) (alpha s) st (node s) (protocol s) (refresh_loop s).

Definition set_protocol (p : option P) (s : t) : t :=
  mk (ksize s) (alpha s) (storage s) (node s) p (refresh_loop s).

Definition set_refresh_loop (h : option TimerHandle) (s : t) : t :=
  mk (ksize s) (alpha s) (storage s) (node s) (protocol s) h.

Definition with_self (f : t -> t) (m : Machine) : Machine :=
  {| self := f (self m); ready := ready m; timers := timers m;
     trace := trace m |}.

(** The machine after the events [evs] have been added to its trace. *)
Definition record (evs : list Event) (m : Machine) : Machine :=
  {| self := self m; ready := ready m; timers := timers m;
     trace := (trace m ++ evs)%list |}.

(** The machine after an awaited call has left the storage and the
    protocol state as [h]. *)
Definition settle (h : St * P) (m : Machine) : Machine :=
  with_self (fun s => set_protocol (Some (snd h)) (set_storage (fst h) s))
            m.

Definition Py (A : Type) : Type := M Machine A.

(** *** Calls to the collaborators *)

Definition emit (e : Event) : Py unit :=
  modify (record [e]).

Definition log (level : LogLevel) (fmt : string) : Py unit :=
  emit (EvLog level fmt).

Definition call_digest (key : Value) : Py Bytes :=
  emit (EvDigest key) ;; ret (digest key).

(** [self.storage.get(dkey)] *)
Definition self_storage_get (dkey : Bytes) : Py Value :=
  emit (EvStorageGet dkey) ;;
  gets (fun m => storage_get (storage (self m)) dkey).

(** [self.storage[dkey] = value] *)
Definition self_storage_setitem (dkey : Bytes) (value : Value) : Py unit :=
  emit (EvStorageSet dkey value) ;;
  modify (with_self (fun s =>
    set_storage (storage_setitem (storage s) dkey value) s)).

(** [self.storage.iter_older_than(seconds)] *)
Definition self_storage_iter_older_than (seconds : Z)
  : Py (list (Bytes * Value)) :=
  emit (EvIterOlderThan seconds) ;;
  gets (fun m => storage_iter_older_than (storage (self m)) seconds).

(** [self.protocol.attr]: an attribute of [None] raises. *)
Definition self_protocol (attr : string) : Py P :=
  fun m =>
    match protocol (self m) with
    | Some p => (inr p, m)
    | None =>
        (inl (AttributeError
                ("'NoneType' object has no attribute '" ++ attr ++ "'")),
         m)
    end.

(** [self.protocol.router.find_neighbors(node, k)] *)
Definition find_neighbors (n : Node.t) (k : option Z)
  : Py (list Node.t) :=
  p <- self_protocol "router" ;;
  emit (EvFindNeighbors n k) ;;
  ret (router_find_neighbors p n k).

(** [self.protocol.get_refresh_ids()] *)
Definition protocol_get_refresh_ids : Py (list Bytes) :=
  p <- self_protocol "get_refresh_ids" ;;
  emit EvGetRefreshIds ;;
  let (ids, p') := get_refresh_ids p in
  modify (with_self (set_protocol (Some p'))) ;;
  ret ids.

(** [await call]: the call runs on the storage and the protocol state and
    leaves both as the network made them. *)
Definition await {A : Type} (attr : string) (e : Event)
           (call : St * P -> A * (St * P)) : Py A :=
  p <- self_protocol attr ;;
  emit e ;;
  st <- gets (fun m => storage (self m)) ;;
  let (a, h) := call (st, p) in
  modify (settle h) ;;
  ret a.

(** [SpiderCrawl(self.protocol, node, peers, self.ksize, self.alpha)] *)
Definition new_spider (kind : SpiderKind) (n : Node.t)
           (peers : list Node.t) : Py SpiderCrawl :=
  k <- gets (fun m => ksize (self m)) ;;
  a <- gets (fun m => alpha (self m)) ;;
  let spider :=
    {| sp_node := n; sp_peers := peers; sp_ksize := k; sp_alpha := a |} in
  emit (EvSpiderNew kind spider) ;;
  ret spider.

(** [spider.find()] of a [NodeSpiderCrawl] *)
Definition find_nodes (spider : SpiderCrawl) : Py (list Node.t) :=
  await "find_node" (EvSpiderFind NodeSpiderCrawl spider)
        (node_spider_find spider).

(** [spider.find()] of a [ValueSpiderCrawl] *)
Definition find_value (spider : SpiderCrawl) : Py Value :=
  await "find_value" (EvSpiderFind ValueSpiderCrawl spider)
        (value_spider_find spider).

(** [self.protocol.call_store(n, dkey, value)] *)
Definition protocol_call_store (n : Node.t) (dkey : Bytes) (value : Value)
  : Py Value :=
  await "call_store" (EvCallStore n dkey value) (call_store n dkey value).

(** [self.protocol.ping(addr, sender)] *)
Definition protocol_ping (addr : Addr) (sender : Bytes)
  : Py (bool * Bytes) :=
  await "ping" (EvPing addr sender) (ping addr sender).

(** [asyncio.ensure_future(co)] *)
Definition ensure_future (co : Coroutine) : Py unit :=
  emit (EvEnsureFuture co) ;;
  modify (fun m =>
    {| self := self m; ready := (ready m ++ [co])%list; timers := timers m;
       trace := trace m |}).

(** [loop.call_later(delay, callback)] *)
Definition call_later (d : Z) (cb : Callback) : Py TimerHandle :=
  let h := {| delay := d; callback := cb |} in
  emit (EvCallLater h) ;;
  modify (fun m =>
    {| self := self m; ready := ready m; timers := (timers m ++ [h])%list;
       trace := trace m |}) ;;
  ret h.

(** *** [__init__] (lines 18-26)

    An omitted [ksize] or [alpha] is [None] here and takes the default;
    [getrandbits] is the value [random.getrandbits(255)] draws.  In
    [node_id or ...] an empty byte string is false, like [None]; in
    [storage or ...] a storage object is true. *)
Definition __init__ (ksize_arg alpha_arg : option Z)
           (node_id : option Bytes) (storage_arg : option St)
           (getrandbits : Z) : t :=
  {| ksize := match ksize_arg with Some k => k | None => default_ksize end;
     alpha := match alpha_arg with Some a => a | None => default_alpha end;
     storage := match storage_arg with
                | Some st => st
                | None => ForgetfulStorage
                end;
     node := Node.target
               match node_id with
               | Some (b :: bs) => b :: bs
               | _ => digest (VInt getrandbits)
               end;
     protocol := None;
     refresh_loop := None |}.

(** *** [set_digest] (lines 111-128) *)

(** Lines 127-128: one [store] call per located node, gathered; the
    result is [any] of what the calls resolve to. *)
Definition store_on (nodes : list Node.t) (dkey : Bytes) (value : Value)
  : Py bool :=
  results <-
    gather (map (fun n => protocol_call_store n dkey value) nodes) ;;
  ret (existsb truthy results).

Definition set_digest (dkey : Bytes) (value : Value) : Py bool :=
  let n := Node.target dkey in
  nearest <- find_neighbors n None ;;
  match nearest with
  | [] =>
      log WARNING "There are no known neighbors to set key %s" ;;
      ret false
  | _ :: _ =>
      spider <- new_spider NodeSpiderCrawl n nearest ;;
      nodes <- find_nodes spider ;;
      log INFO "setting '%s' on %s" ;;
      biggest <-
        lift_exn (py_max (map (fun x => Node.distance_to x n) nodes)) ;;
      me <- gets (fun m => node (self m)) ;;
      (if Z.ltb (Node.distance_to me n) biggest
       then self_storage_setitem dkey value
       else ret tt) ;;
      store_on nodes dkey value
  end.

(** *** [set] (lines 102-109) *)
Definition set (key value : Value) : Py bool :=
  if negb (check_dht_value_type value)
  then raise
         (TypeError "Value must be of type int, float, bool, str, or bytes")
  else
    log INFO "setting '%s' = '%s' on network" ;;
    dkey <- call_digest key ;;
    set_digest dkey value.

(** *** [get] (lines 88-100) *)
Definition get (key : Value) : Py Value :=
  log INFO "Looking up key %s" ;;
  dkey <- call_digest key ;;
  found <- self_storage_get dkey ;;
  if negb (is_none found)
  then self_storage_get dkey
  else
    let n := Node.target dkey in
    nearest <- find_neighbors n None ;;
    match nearest with
    | [] =>
        log WARNING "There are no known neighbors to get key %s" ;;
        ret VNone
    | _ :: _ =>
        spider <- new_spider ValueSpiderCrawl n nearest ;;
        find_value spider
    end.

(** *** [bootstrap_node] and [bootstrap] (lines 74-86) *)
Definition bootstrap_node (addr : Addr) : Py (option Node.t) :=
  me <- gets (fun m => node (self m)) ;;
  result <- protocol_ping addr (Node.id me) ;;
  ret (if fst result
       then Some (Node.new (snd result) (Some (fst addr)) (Some (snd addr)))
       else None).

Definition bootstrap (addrs : list Addr) : Py (list Node.t) :=
  log DEBUG "Attempting to bootstrap node with %i initial contacts" ;;
  gathered <- gather (map bootstrap_node addrs) ;;
  let nodes := not_none gathered in
  me <- gets (fun m => node (self m)) ;;
  spider <- new_spider NodeSpiderCrawl me nodes ;;
  find_nodes spider.

(** *** [refresh_table] and [_refresh_table] (lines 50-68) *)
Definition refresh_table : Py unit :=
  log DEBUG "Refreshing routing table" ;;
  ensure_future Co_refresh_table ;;
  h <- call_later refresh_delay Cb_refresh_table ;;
  modify (with_self (set_refresh_loop (Some h))).

(** [for dkey, value in entries: await self.set_digest(dkey, value)] *)
Definition republish (entries : list (Bytes * Value)) : Py unit :=
  for_each entries (fun kv => set_digest (fst kv) (snd kv)) ;;
  ret tt.

Definition _refresh_table : Py unit :=
  ids <- protocol_get_refresh_ids ;;
  results <-
    for_each ids (fun node_id =>
      let n := Node.target node_id in
      a <- gets (fun m => alpha (self m)) ;;
      nearest <- find_neighbors n (Some a) ;;
      spider <- new_spider NodeSpiderCrawl n nearest ;;
      ret (find_nodes spider)) ;;
  gather results ;;
  entries <- self_storage_iter_older_than republish_age ;;
  republish entries.

(** *** The event loop *)

Definition run_coroutine (co : Coroutine) : Py unit :=
  match co with Co_refresh_table => _refresh_table end.

Definition run_callback (cb : Callback) : Py unit :=
  match cb with Cb_refresh_table => refresh_table end.

(** The loop runs the coroutine at the head of the ready queue. *)
Definition run_ready : Py unit :=
  fun m =>
    match ready m with
    | [] => (inr tt, m)
    | co :: rest =>
        run_coroutine co
          {| self := self m; ready := rest; timers := timers m;
             trace := trace m |}
    end.

(** The timer at the head of the timer list comes due. *)
Definition fire_timer : Py unit :=
  fun m =>
    match timers m with
    | [] => (inr tt, m)
    | h :: rest =>
        run_callback (callback h)
          {| self := self m; ready := ready m; timers := rest;
             trace := trace m |}
    end.

(** The events a computation adds to the trace of [m]. *)
Definition events_of {A : Type} (c : Py A) (m : Machine) : list Event :=
  skipn (List.length (trace m)) (trace (snd (c m))).

(** *** What the network answers

    The answers to the successive [store] calls for [nodes], each call
    running on the storage and protocol state the previous one left. *)
Fixpoint store_calls (nodes : list Node.t) (dkey : Bytes) (value : Value)
         (h : St * P) : list Value * (St * P) :=
  match nodes with
  | [] => ([], h)
  | n :: rest =>
      let (r, h1) := call_store n dkey value h in
      let (rs, h2) := store_calls rest dkey value h1 in
      (r :: rs, h2)
  end.

(** The answers to the successive pings of [addrs]. *)
Fixpoint ping_calls (addrs : list Addr) (sender : Bytes) (h : St * P)
  : list (bool * Bytes) * (St * P) :=
  match addrs with
  | [] => ([], h)
  | addr :: rest =>
      let (r, h1) := ping addr sender h in
      let (rs, h2) := ping_calls rest sender h1 in
      (r :: rs, h2)
  end.

(** [biggest] is the maximum of [xs]. *)
Definition is_maximum (biggest : Z) (xs : list Z) : Prop :=
  In biggest xs /\ Forall (fun x => x <= biggest) xs.

End Server.

Arguments t : clear implicits.
Arguments Machine : clear implicits.

End Server.

(** The events of [set_digest] from its start to the end of the lookup
    (lines 112-123), when the routing table gave neighbors. *)
Definition lookup_events (dkey : Bytes) (spider : SpiderCrawl) : list Event :=
  [EvFindNeighbors (Node.target dkey) None;
   EvSpiderNew NodeSpiderCrawl spider;
   EvSpiderFind NodeSpiderCrawl spider;
   EvLog INFO "setting '%s' on %s"].

Definition is_call_store (e : Event) : bool :=
  match e with EvCallStore _ _ _ => true | _ => false end.

Definition is_ping (e : Event) : bool :=
  match e with EvPing _ _ => true | _ => false end.

(** The options as the specification lists them (section 6, "Configuration"),
    to be compared with the parameters of [Server.__init__]. *)
Definition spec_options : list string :=
  ["ksize"; "alpha"; "node_id"; "rpc_timeout"; "refresh_interval"].

(** ** A simulated network

    A small deterministic instance of the collaborators, on which the
    operations of the server can be run. *)

Module Sim.

Fixpoint bytes_eqb (a b : Bytes) : bool :=
  match a, b with
  | [], [] => true
  | x :: a', y :: b' => Byte.eqb x y && bytes_eqb a' b'
  | _, _ => false
  end.

Definition addr_eqb (a b : Addr) : bool :=
  String.eqb (fst a) (fst b) && Z.eqb (snd a) (snd b).

(** A stand-in for SHA-1: the bytes of a string or byte key, one byte for
    an integer. *)
Definition toy_digest (key : Value) : Bytes :=
  match key with
  | VStr s => list_byte_of_string s
  | VBytes b => b
  | VInt z =>
      match Byte.of_N (Z.to_N (z mod 256)) with
      | Some b => [b]
      | None => []
      end
  | _ => []
  end.

(** The store: an association list, oldest entry first, each value with
    its age in seconds. *)
Definition Storage : Type := list (Bytes * (Z * Value)).

Fixpoint get (st : Storage) (dkey : Bytes) : Value :=
  match st with
  | [] => VNone
  | (k, (_, v)) :: rest => if bytes_eqb k dkey then v else get rest dkey
  end.

Definition setitem (st : Storage) (dkey : Bytes) (value : Value) : Storage :=
  (filter (fun kv => negb (bytes_eqb (fst kv) dkey)) st
     ++ [(dkey, (0, value))])%list.

Definition iter_older_than (st : Storage) (seconds : Z)
  : list (Bytes * Value) :=
  map (fun kv => (fst kv, snd (snd kv)))
      (filter (fun kv => Z.leb seconds (fst (snd kv))) st).

(** The network: the contacts of the routing table, the ids of the nodes
    that do not answer, the stale bucket ids, and the hosts that answer a
    ping with their id. *)
Record Net : Type := {
  contacts : list Node.t;
  down : list Z;
  stale : list Bytes;
  hosts : list (Addr * Bytes)
}.

Definition alive (net : Net) (n : Node.t) : bool :=
  negb (existsb (Z.eqb (Node.long_id n)) (down net)).

Definition find_neighbors (net : Net) (n : Node.t) (k : option Z)
  : list Node.t :=
  match k with
  | None => contacts net
  | Some k => firstn (Z.to_nat k) (contacts net)
  end.

Fixpoint lookup_host (hs : list (Addr * Bytes)) (addr : Addr)
  : option Bytes :=
  match hs with
  | [] => None
  | (a, i) :: rest => if addr_eqb a addr then Some i else lookup_host rest addr
  end.

Definition answer_ping (addr : Addr) (sender : Bytes) (h : Storage * Net)
  : (bool * Bytes) * (Storage * Net) :=
  match lookup_host (hosts (snd h)) addr with
  | Some i => ((true, i), h)
  | None => ((false, []), h)
  end.

Definition hashing : Hashing := {| digest := toy_digest |}.

Definition backend : StorageBackend Storage :=
  {| storage_get := get;
     storage_setitem := setitem;
     storage_iter_older_than := iter_older_than;
     ForgetfulStorage := [] |}.

(** A lookup returns the peers that answer; a [store] call resolves to
    whether the node answered. *)
Definition layer : ProtocolLayer Storage Net :=
  {| router_find_neighbors := find_neighbors;
     get_refresh_ids := fun net => (stale net, net);
     ping := answer_ping;
     call_store := fun n _ _ h => (VBool (alive (snd h) n), h);
     node_spider_find := fun sp h => (filter (alive (snd h)) (sp_peers sp), h);
     value_spider_find := fun _ h => (VNone, h) |}.

Definition machine (s : Server.t Storage Net) : Server.Machine Storage Net :=
  {| Server.self := s; Server.ready := []; Server.timers := [];
     Server.trace := [] |}.

Definition peer (i : byte) (host : string) : Node.t :=
  Node.new [i] (Some host) (Some 8468).

(** A server with id 0x01 that listens, with the given store and network. *)
Definition server (st : Storage) (net : Net) : Server.t Storage Net :=
  Server.mk 20 3 st (Node.target ["001"%byte]) (Some net) None.

End Sim.

(** ** What an RPC resolves to *)

(** Modelled from the spec: [kademlia/protocol.py] is not among the sources.
    An outbound request is resolved with the pair [(True, result)] when its
    response arrives and with [(False, None)] when its deadline expires. *)
Definition rpc_resolved (result : Value) : Value :=
  VTuple [VBool true; result].

Definition rpc_timed_out : Value := VTuple [VBool false; VNone].

Definition is_rpc_outcome (r : Value) : Prop :=
  r = rpc_timed_out \/ exists result, r = rpc_resolved result.

(** [r[0]], the success flag of an outcome, which line 86 reads from the
    outcome of a ping. *)
Definition rpc_succeeded (r : Value) : bool :=
  match r with
  | VTuple (ok :: _) => truthy ok
  | _ => false
  end.

(** Modelled from the spec: a simulated network whose peers all answer a
    lookup and in which every [store] request then meets its deadline
    unanswered, over the datagram transport that may lose any message. *)
Definition lossy_layer : ProtocolLayer Sim.Storage Sim.Net :=
  {| router_find_neighbors := Sim.find_neighbors;
     get_refresh_ids := fun net => (Sim.stale net, net);
     ping := Sim.answer_ping;
     call_store := fun _ _ _ h => (rpc_timed_out, h);
     node_spider_find := fun sp h => (sp_peers sp, h);
     value_spider_find := fun _ h => (VNone, h) |}.

(** ** Further notions for the properties of the operations *)

Section Lookups.

Context {St P : Type}.
Context {layer : ProtocolLayer St P}.

(** The answers to the successive lookups of [spiders], each lookup running
    on the storage and protocol state the previous one left. *)
Fixpoint spider_calls (spiders : list SpiderCrawl) (h : St * P)
  : list (list Node.t) * (St * P) :=
  match spiders with
  | [] => ([], h)
  | sp :: rest =>
      let (r, h1) := node_spider_find sp h in
      let (rs, h2) := spider_calls rest h1 in
      (r :: rs, h2)
  end.

(** The spider the maintenance task makes for the stale bucket id
    [node_id] (lines 59-62), on a server with parameters [k] and [a] whose
    routing table is that of [p]. *)
Definition refresh_spider (k a : Z) (p : P) (node_id : Bytes) : SpiderCrawl :=
  {| sp_node := Node.target node_id;
     sp_peers := router_find_neighbors p (Node.target node_id) (Some a);
     sp_ksize := k;
     sp_alpha := a |}.

(** What the loop of lines 58-63 records for a spider. *)
Definition refresh_spider_events (sp : SpiderCrawl) : list Event :=
  [EvFindNeighbors (sp_node sp) (Some (sp_alpha sp));
   EvSpiderNew NodeSpiderCrawl sp].

End Lookups.

Section Timers.

Context {St P : Type}.

(** [n] timers come due, one after the other. *)
Fixpoint fire_timers (n : nat) : Server.Py (St:=St) (P:=P) unit :=
  match n with
  | O => ret tt
  | S k => Server.fire_timer ;; fire_timers k
  end.

End Timers.

(** ** The rest of [class Server]: the endpoint, the state file, the timers

    [listen], [bootstrappable_neighbors], [save_state] and
    [save_state_regularly] (lines 38-48, 70-72, 130-142, 155-161). *)

(** [protocol_class(node, storage, ksize)]: the constructor of
    [KademliaProtocol], which [_create_protocol] calls (line 39). *)
Class ProtocolClass (St P : Type) : Type := {
  protocol_class : Node.t -> St -> Z -> P
}.

(** The dictionary [save_state] pickles (lines 132-137).  A neighbor is the
    pair of the last two components of a node, its ip and its port. *)
Record SavedState : Type := {
  saved_ksize : Z;
  saved_alpha : Z;
  saved_id : Bytes;
  saved_neighbors : list (option string * option Z)
}.

(** The files written with [pickle.dump], by name: reading a file back gives
    the dictionary that was written. *)
Definition Files : Type := string -> option SavedState.

Definition write_file (fname : string) (data : SavedState) (fs : Files)
  : Files :=
  fun name => if String.eqb name fname then Some data else fs name.

(** [loop.call_later(frequency, self.save_state_regularly, fname,
    frequency)] *)
Record SaveTimer : Type := {
  save_delay : Z;
  save_fname : string;
  save_frequency : Z
}.

Module Lifecycle.

Section Lifecycle.

Context {St P : Type}.
Context {hashing : Hashing}.
Context {backend : StorageBackend St}.
Context {layer : ProtocolLayer St P}.
Context {endpoint : ProtocolClass St P}.

(** A server with the fields and the surroundings that [Server.Machine]
    leaves out: its transport (by the address it is bound to), the handle
    and the pending timers of [save_state_regularly], and the files. *)
Record Process : Type := {
  machine : Server.Machine St P;
  transport : option Addr;
  save_state_loop : option SaveTimer;
  save_timers : list SaveTimer;
  files : Files
}.

Definition with_machine (f : Server.Machine St P -> Server.Machine St P)
           (pr : Process) : Process :=
  {| machine := f (machine pr); transport := transport pr;
     save_state_loop := save_state_loop pr; save_timers := save_timers pr;
     files := files pr |}.

Definition Proc (A : Type) : Type := M Process A.

(** An operation of [Server.Machine], run within the process. *)
Definition lift {A : Type} (c : Server.Py A) : Proc A :=
  fun pr =>
    let (r, m') := c (machine pr) in
    (r, with_machine (fun _ => m') pr).

(** *** [_create_protocol] and [listen] (lines 38-48)

    The endpoint is taken to open: the transport is bound to
    [(interface, port)] and the protocol is the one [_create_protocol]
    makes. *)
Definition _create_protocol (s : Server.t St P) : P :=
  protocol_class (Server.node s) (Server.storage s) (Server.ksize s).

Definition listen (port : Z) (interface : string) : Proc unit :=
  lift (Server.log INFO "Node %i listening on %s:%i") ;;
  modify (fun pr =>
    {| machine :=
         Server.with_self
           (fun s => Server.set_protocol (Some (_create_protocol s)) s)
           (machine pr);
       transport := Some (interface, port);
       save_state_loop := save_state_loop pr;
       save_timers := save_timers pr;
       files := files pr |}) ;;
  lift Server.refresh_table.

(** *** [bootstrappable_neighbors] (lines 70-72)

    Modelled from the spec: a contact is the triple [(id, ip, port)], so
    [tuple(n)[-2:]] is the pair of the ip and the port of [n]. *)
Definition bootstrappable_neighbors
  : Server.Py (St:=St) (P:=P) (list (option string * option Z)) :=
  me <- gets (fun m => Server.node (Server.self m)) ;;
  neighbors <- Server.find_neighbors me None ;;
  ret (map (fun n => (Node.ip n, Node.port n)) neighbors).

(** The dictionary [save_state] makes on a server whose routing table gives
    [neighbors]. *)
Definition state_of (s : Server.t St P) (neighbors : list Node.t)
  : SavedState :=
  {| saved_ksize := Server.ksize s;
     saved_alpha := Server.alpha s;
     saved_id := Node.id (Server.node s);
     saved_neighbors := map (fun n => (Node.ip n, Node.port n)) neighbors |}.

(** *** [save_state] (lines 130-142)

    The file is taken to open for writing: [open] and [pickle.dump] leave
    the dictionary in the file [fname]. *)
Definition save_state (fname : string) : Proc unit :=
  lift (Server.log INFO "Saving state to %s") ;;
  s <- gets (fun pr => Server.self (machine pr)) ;;
  neighbors <- lift bootstrappable_neighbors ;;
  let data := {| saved_ksize := Server.ksize s;
                 saved_alpha := Server.alpha s;
                 saved_id := Node.id (Server.node s);
                 saved_neighbors := neighbors |} in
  match neighbors with
  | [] =>
      lift (Server.log WARNING "No known neighbors, so not writing to cache.")
  | _ :: _ =>
      modify (fun pr =>
        {| machine := machine pr; transport := transport pr;
           save_state_loop := save_state_loop pr;
           save_timers := save_timers pr;
           files := write_file fname data (files pr) |})
  end.

(** *** [save_state_regularly] (lines 155-161) *)
Definition save_state_regularly (fname : string) (frequency : Z)
  : Proc unit :=
  save_state fname ;;
  let h := {| save_delay := frequency; save_fname := fname;
              save_frequency := frequency |} in
  modify (fun pr =>
    {| machine := machine pr; transport := transport pr;
       save_state_loop := Some h;
       save_timers := (save_timers pr ++ [h])%list;
       files := files pr |}).

(** The save timer at the head of the list comes due. *)
Definition fire_save_timer : Proc unit :=
  fun pr =>
    match save_timers pr with
    | [] => (inr tt, pr)
    | h :: rest =>
        save_state_regularly (save_fname h) (save_frequency h)
          {| machine := machine pr; transport := transport pr;
             save_state_loop := save_state_loop pr;
             save_timers := rest;
             files := files pr |}
    end.

(** [n] save timers come due, one after the other. *)
Fixpoint fire_save_timers (n : nat) : Proc unit :=
  match n with
  | O => ret tt
  | S k => fire_save_timer ;; fire_save_timers k
  end.

(** A process around a server that was just constructed. *)
Definition start (s : Server.t St P) : Process :=
  {| machine := {| Server.self := s; Server.ready := [];
                   Server.timers := []; Server.trace := [] |};
     transport := None; save_state_loop := None; save_timers := [];
     files := fun _ => None |}.

End Lifecycle.

Arguments Process : clear implicits.

End Lifecycle.

(** A new protocol of the simulated network knows no contact. *)
Definition sim_endpoint : ProtocolClass Sim.Storage Sim.Net :=
  {| protocol_class := fun _ _ _ => Sim.Build_Net [] [] [] [] |}.

(** * Properties *)

(** ** Types of values *)

Lemma PyType_eqb_refl (t : PyType) : PyType_eqb t t = true.
Proof.
  induction t; simpl; trivial.
  rewrite String.eqb_refl, IHt. reflexivity.
Qed.

Lemma PyType_eqb_eq (t u : PyType) : PyType_eqb t u = true <-> t = u.
Proof.
  split.
  - revert u. induction t; destruct u; simpl; intros H;
      try reflexivity; try discriminate H.
    apply andb_true_iff in H. destruct H as [Hn Hb].
    apply String.eqb_eq in Hn. apply IHt in Hb. now subst.
  - intros ->. apply PyType_eqb_refl.
Qed.

Lemma check_dht_value_type_In (v : Value) :
  check_dht_value_type v = true <-> In (type_of v) typeset.
Proof.
  unfold check_dht_value_type. rewrite existsb_exists. split.
  - intros [t [Hin Heq]]. apply PyType_eqb_eq in Heq. now subst.
  - intros Hin. exists (type_of v). split; [assumption|].
    apply PyType_eqb_refl.
Qed.

Lemma check_dht_value_type_not_In (v : Value) :
  check_dht_value_type v = false <-> ~ In (type_of v) typeset.
Proof.
  rewrite <- check_dht_value_type_In.
  destruct (check_dht_value_type v); split; intros H;
    try reflexivity; try discriminate; congruence.
Qed.

(** ** The monad *)

Section Monad.

Context {S : Type}.

Lemma bind_inr {A B : Type} (c : M S A) (k : A -> M S B) s a s' :
  c s = (inr a, s') -> bind c k s = k a s'.
Proof. unfold bind. now intros ->. Qed.

Lemma bind_inl {A B : Type} (c : M S A) (k : A -> M S B) s e s' :
  c s = (inl e, s') -> bind c k s = (inl e, s').
Proof. unfold bind. now intros ->. Qed.

Lemma raises_only_ret {A : Type} ok (a : A) : raises_only ok (@ret S A a).
Proof. intros s e H. discriminate H. Qed.

Lemma raises_only_gets {A : Type} ok (f : S -> A) : raises_only ok (gets f).
Proof. intros s e H. discriminate H. Qed.

Lemma raises_only_modify ok (f : S -> S) : raises_only ok (modify f).
Proof. intros s e H. discriminate H. Qed.

Lemma raises_only_raise {A : Type} (ok : Exn -> Prop) e :
  ok e -> raises_only ok (@raise S A e).
Proof. intros Hok s e' H. simpl in H. now inversion H; subst. Qed.

Lemma raises_only_bind {A B : Type} ok (c : M S A) (k : A -> M S B) :
  raises_only ok c -> (forall a, raises_only ok (k a)) ->
  raises_only ok (bind c k).
Proof.
  intros Hc Hk s e. unfold bind.
  destruct (c s) as [[e'|a] s'] eqn:E.
  - simpl. intros H. apply (Hc s). rewrite E. simpl. congruence.
  - apply Hk.
Qed.

Lemma raises_only_gather {A : Type} ok (cos : list (M S A)) :
  Forall (raises_only ok) cos -> raises_only ok (gather cos).
Proof.
  induction 1 as [|co rest Hco Hrest IH]; simpl.
  - apply raises_only_ret.
  - apply raises_only_bind; [exact Hco|]. intros x.
    apply raises_only_bind; [exact IH|]. intros xs. apply raises_only_ret.
Qed.

Lemma raises_only_for_each {A B : Type} ok (xs : list A) (body : A -> M S B) :
  (forall x, raises_only ok (body x)) -> raises_only ok (for_each xs body).
Proof.
  intros Hbody. induction xs as [|x rest IH]; simpl.
  - apply raises_only_ret.
  - apply raises_only_bind; [apply Hbody|]. intros y.
    apply raises_only_bind; [exact IH|]. intros ys. apply raises_only_ret.
Qed.

End Monad.

(** ** Machines and the calls to the collaborators *)

Section Machines.

Context {St P : Type}.
Context {hashing : Hashing}.
Context {backend : StorageBackend St}.
Context {layer : ProtocolLayer St P}.

Implicit Types (m : Server.Machine St P) (h : St * P).

Lemma record_nil m : Server.record [] m = m.
Proof. destruct m. unfold Server.record. simpl. now rewrite app_nil_r. Qed.

Lemma record_record evs1 evs2 m :
  Server.record evs2 (Server.record evs1 m) = Server.record (evs1 ++ evs2) m.
Proof. unfold Server.record. simpl. now rewrite app_assoc. Qed.

Lemma settle_record evs h m :
  Server.settle h (Server.record evs m) = Server.record evs (Server.settle h m).
Proof. reflexivity. Qed.

Lemma settle_settle h1 h2 m :
  Server.settle h2 (Server.settle h1 m) = Server.settle h2 m.
Proof. reflexivity. Qed.

Lemma settle_same m p :
  Server.protocol (Server.self m) = Some p ->
  Server.settle (Server.storage (Server.self m), p) m = m.
Proof.
  destruct m as [[k a st n pr rl] rd tm tr]. simpl. intros ->. reflexivity.
Qed.

Lemma events_of_record {A : Type} (c : Server.Py A) m r evs m' :
  c m = (r, Server.record evs m') -> Server.trace m' = Server.trace m ->
  Server.events_of c m = evs.
Proof.
  intros Hc Htr. unfold Server.events_of. rewrite Hc. simpl. rewrite Htr.
  rewrite skipn_app, skipn_all, Nat.sub_diag. reflexivity.
Qed.

Lemma find_neighbors_run m p n k :
  Server.protocol (Server.self m) = Some p ->
  Server.find_neighbors n k m
  = (inr (router_find_neighbors p n k),
     Server.record [EvFindNeighbors n k] m).
Proof.
  intros Hp. unfold Server.find_neighbors, Server.self_protocol, bind.
  rewrite Hp. reflexivity.
Qed.

Lemma await_run {A : Type} attr e (call : St * P -> A * (St * P)) m p a h :
  Server.protocol (Server.self m) = Some p ->
  call (Server.storage (Server.self m), p) = (a, h) ->
  Server.await attr e call m = (inr a, Server.settle h (Server.record [e] m)).
Proof.
  intros Hp Hc. unfold Server.await, Server.self_protocol, bind.
  rewrite Hp. simpl. rewrite Hc. reflexivity.
Qed.

Lemma new_spider_run kind n peers m :
  Server.new_spider kind n peers m
  = (inr {| sp_node := n; sp_peers := peers;
            sp_ksize := Server.ksize (Server.self m);
            sp_alpha := Server.alpha (Server.self m) |},
     Server.record
       [EvSpiderNew kind {| sp_node := n; sp_peers := peers;
                            sp_ksize := Server.ksize (Server.self m);
                            sp_alpha := Server.alpha (Server.self m) |}] m).
Proof. reflexivity. Qed.

(** No operation on the collaborators raises [TypeError]. *)

Lemma self_protocol_no_type_error attr :
  raises_only not_type_error (Server.self_protocol (St:=St) (P:=P) attr).
Proof.
  intros m e. unfold Server.self_protocol.
  destruct (Server.protocol (Server.self m)); simpl; intros H.
  - discriminate H.
  - inversion H. exact I.
Qed.

Lemma await_no_type_error {A : Type} attr e (call : St * P -> A * (St * P)) :
  raises_only not_type_error (Server.await attr e call).
Proof.
  unfold Server.await.
  apply raises_only_bind; [apply self_protocol_no_type_error|]. intros p.
  apply raises_only_bind; [apply raises_only_modify|]. intros _.
  apply raises_only_bind; [apply raises_only_gets|]. intros st.
  destruct (call (st, p)) as [a h].
  apply raises_only_bind; [apply raises_only_modify|]. intros _.
  apply raises_only_ret.
Qed.

Lemma find_neighbors_no_type_error n k :
  raises_only not_type_error (Server.find_neighbors (St:=St) (P:=P) n k).
Proof.
  unfold Server.find_neighbors.
  apply raises_only_bind; [apply self_protocol_no_type_error|]. intros p.
  apply raises_only_bind; [apply raises_only_modify|]. intros _.
  apply raises_only_ret.
Qed.

Lemma store_on_no_type_error nodes dkey value :
  raises_only not_type_error
    (Server.store_on (St:=St) (P:=P) nodes dkey value).
Proof.
  unfold Server.store_on.
  apply raises_only_bind; [|intros; apply raises_only_ret].
  apply raises_only_gather. apply Forall_map, Forall_forall. intros n _.
  apply await_no_type_error.
Qed.

Lemma set_digest_no_type_error dkey value :
  raises_only not_type_error (Server.set_digest (St:=St) (P:=P) dkey value).
Proof.
  unfold Server.set_digest.
  apply raises_only_bind; [apply find_neighbors_no_type_error|].
  intros [|n0 nearest].
  - apply raises_only_bind; [apply raises_only_modify|]. intros _.
    apply raises_only_ret.
  - apply raises_only_bind.
    { unfold Server.new_spider.
      repeat (apply raises_only_bind;
              [first [apply raises_only_gets | apply raises_only_modify]|];
              intros ?).
      apply raises_only_ret. }
    intros spider.
    apply raises_only_bind; [apply await_no_type_error|]. intros nodes.
    apply raises_only_bind; [apply raises_only_modify|]. intros _.
    apply raises_only_bind.
    { intros m e. unfold lift_exn, py_max. simpl.
      destruct (map _ nodes); intros H; inversion H. exact I. }
    intros biggest.
    apply raises_only_bind; [apply raises_only_gets|]. intros me.
    apply raises_only_bind; [|intros _; apply store_on_no_type_error].
    destruct (Z.ltb _ _); [|apply raises_only_ret].
    unfold Server.self_storage_setitem.
    apply raises_only_bind; [apply raises_only_modify|]. intros _.
    apply raises_only_modify.
Qed.

End Machines.

(** ** [set]: the check of the value type *)

Section ValueTypes.

Context {St P : Type}.
Context {hashing : Hashing}.
Context {backend : StorageBackend St}.
Context {layer : ProtocolLayer St P}.

Implicit Types (m : Server.Machine St P).

Lemma set_raises_on_failed_check key value m :
  check_dht_value_type value = false ->
  Server.set key value m
  = (inl (TypeError "Value must be of type int, float, bool, str, or bytes"),
     m).
Proof. intros H. unfold Server.set. rewrite H. reflexivity. Qed.

Lemma set_runs_set_digest key value m :
  check_dht_value_type value = true ->
  Server.set key value m
  = Server.set_digest (digest key) value
      (Server.record [EvLog INFO "setting '%s' = '%s' on network"; EvDigest key]
                     m).
Proof.
  intros H. unfold Server.set. rewrite H. simpl.
  unfold Server.log, Server.call_digest, Server.emit, bind, modify, ret.
  rewrite record_record. reflexivity.
Qed.

(** C1.  A value whose type is not one of int, float, bool, str, bytes makes
    [set] raise the [TypeError] of line 104 on the machine as it was found:
    no digest has been computed, no lookup started, no RPC issued, nothing
    logged.  A value of one of the five types never makes [set] raise a
    [TypeError]. *)
Theorem set_checks_the_value_type_first key value m :
  (~ In (type_of value) typeset ->
   Server.set key value m
   = (inl (TypeError "Value must be of type int, float, bool, str, or bytes"),
      m)
   /\ Server.events_of (Server.set key value) m = [])
  /\ (In (type_of value) typeset ->
      forall msg, fst (Server.set key value m) <> inl (TypeError msg)).
Proof.
  split.
  - intros Hout. apply check_dht_value_type_not_In in Hout.
    pose proof (set_raises_on_failed_check key value m Hout) as Hset.
    split; [exact Hset|].
    unfold Server.events_of. rewrite Hset. simpl. apply skipn_all.
  - intros Hin msg Hraise. apply check_dht_value_type_In in Hin.
    rewrite (set_runs_set_digest key value m Hin) in Hraise.
    exact (set_digest_no_type_error _ _ _ _ Hraise).
Qed.

(** C9.  The check is on the exact type: a value whose type is a strict
    subclass of int, float, str or bytes, and is not bool, is an instance of
    that type and still fails the check, so [set] raises the [TypeError]. *)
Theorem set_rejects_strict_subclasses key value base m :
  In base [TInt; TFloat; TStr; TBytes] ->
  strict_subclass (type_of value) base = true ->
  type_of value <> TBool ->
  isinstance value base = true
  /\ check_dht_value_type value = false
  /\ Server.set key value m
     = (inl (TypeError "Value must be of type int, float, bool, str, or bytes"),
        m).
Proof.
  intros Hbase Hstrict Hbool.
  assert (Hcheck : check_dht_value_type value = false).
  { apply check_dht_value_type_not_In. intros Hin.
    remember (type_of value) as t eqn:Ht. clear Ht.
    simpl in Hin, Hbase.
    destruct Hin as [<-|[<-|[<-|[<-|[<-|[]]]]]];
      try (now apply Hbool);
      destruct Hbase as [<-|[<-|[<-|[<-|[]]]]]; discriminate Hstrict. }
  split; [|split].
  - unfold isinstance. unfold strict_subclass in Hstrict.
    apply andb_true_iff in Hstrict. apply Hstrict.
  - exact Hcheck.
  - apply set_raises_on_failed_check. exact Hcheck.
Qed.

End ValueTypes.

Section ValueTypesOnSim.

#[local] Existing Instance Sim.hashing.
#[local] Existing Instance Sim.backend.
#[local] Existing Instance Sim.layer.

Lemma set_checks_the_value_type_first_witness :
  let m := Sim.machine (Sim.server [] (Sim.Build_Net [] [] [] [])) in
  (Server.set (VStr "k") VObject m
   = (inl (TypeError "Value must be of type int, float, bool, str, or bytes"),
      m)
   /\ Server.events_of (Server.set (VStr "k") VObject) m = [])
  /\ (forall msg, fst (Server.set (VStr "k") (VInt 5) m) <> inl (TypeError msg)).
Proof.
  intros m. split.
  - apply (proj1 (set_checks_the_value_type_first (VStr "k") VObject m)).
    simpl. intuition discriminate.
  - apply (proj2 (set_checks_the_value_type_first (VStr "k") (VInt 5) m)).
    simpl. auto.
Defined.

Lemma set_rejects_strict_subclasses_witness :
  let m := Sim.machine (Sim.server [] (Sim.Build_Net [] [] [] [])) in
  let value := VInstance "Counter" (VInt 5) in
  isinstance value TInt = true
  /\ check_dht_value_type value = false
  /\ Server.set (VStr "k") value m
     = (inl (TypeError "Value must be of type int, float, bool, str, or bytes"),
        m).
Proof.
  intros m value.
  apply (set_rejects_strict_subclasses (VStr "k") value TInt m).
  - simpl. auto.
  - reflexivity.
  - discriminate.
Defined.

End ValueTypesOnSim.

(** ** [get] and [set_digest] on the local store and on an empty routing table *)

Section LocalOperations.

Context {St P : Type}.
Context {hashing : Hashing}.
Context {backend : StorageBackend St}.
Context {layer : ProtocolLayer St P}.

Implicit Types (m : Server.Machine St P).

Lemma is_none_false (v : Value) : is_none v = false <-> v <> VNone.
Proof. destruct v; simpl; split; intros H; congruence. Qed.

Lemma get_local_hit key m :
  storage_get (Server.storage (Server.self m)) (digest key) <> VNone ->
  Server.get key m
  = (inr (storage_get (Server.storage (Server.self m)) (digest key)),
     Server.record [EvLog INFO "Looking up key %s"; EvDigest key;
                    EvStorageGet (digest key); EvStorageGet (digest key)] m).
Proof.
  intros Hhit. apply is_none_false in Hhit.
  unfold Server.get, Server.log, Server.call_digest, Server.self_storage_get,
    Server.emit, bind, modify, ret, gets.
  simpl. rewrite Hhit. simpl. rewrite !record_record. reflexivity.
Qed.

Lemma get_local_miss key m :
  storage_get (Server.storage (Server.self m)) (digest key) = VNone ->
  Server.get key m
  = (nearest <- Server.find_neighbors (Node.target (digest key)) None ;;
     match nearest with
     | [] =>
         Server.log WARNING "There are no known neighbors to get key %s" ;;
         ret VNone
     | _ :: _ =>
         spider <-
           Server.new_spider ValueSpiderCrawl (Node.target (digest key))
                             nearest ;;
         Server.find_value spider
     end)%py
      (Server.record [EvLog INFO "Looking up key %s"; EvDigest key;
                      EvStorageGet (digest key)] m).
Proof.
  intros Hmiss.
  unfold Server.get, Server.log, Server.call_digest, Server.self_storage_get,
    Server.emit.
  unfold bind at 1 2 3 4 5. unfold modify, ret, gets.
  simpl. rewrite Hmiss. simpl. rewrite !record_record. reflexivity.
Qed.

Lemma get_without_neighbors key m p :
  Server.protocol (Server.self m) = Some p ->
  storage_get (Server.storage (Server.self m)) (digest key) = VNone ->
  router_find_neighbors p (Node.target (digest key)) None = [] ->
  Server.get key m
  = (inr VNone,
     Server.record
       [EvLog INFO "Looking up key %s"; EvDigest key;
        EvStorageGet (digest key);
        EvFindNeighbors (Node.target (digest key)) None;
        EvLog WARNING "There are no known neighbors to get key %s"] m).
Proof.
  intros Hp Hmiss Hnone. rewrite (get_local_miss key m Hmiss).
  erewrite bind_inr by (apply find_neighbors_run; exact Hp).
  rewrite Hnone.
  unfold Server.log, Server.emit, bind, modify, ret. simpl.
  rewrite !record_record. reflexivity.
Qed.

Lemma set_digest_without_neighbors dkey value m p :
  Server.protocol (Server.self m) = Some p ->
  router_find_neighbors p (Node.target dkey) None = [] ->
  Server.set_digest dkey value m
  = (inr false,
     Server.record
       [EvFindNeighbors (Node.target dkey) None;
        EvLog WARNING "There are no known neighbors to set key %s"] m).
Proof.
  intros Hp Hnone. unfold Server.set_digest.
  erewrite bind_inr by (apply find_neighbors_run; exact Hp).
  rewrite Hnone.
  unfold Server.log, Server.emit, bind, modify, ret. simpl.
  rewrite !record_record. reflexivity.
Qed.

(** C6.  When the local store holds a value for the digest of the key, [get]
    returns that value, and all it has done is log, hash the key and read the
    store: no RPC, no spider, no look at the routing table.  Conversely, a
    run of [get] in which one of these happens is a run in which the store
    had no value for the digest. *)
Theorem get_short_circuits_on_local_value key m :
  (storage_get (Server.storage (Server.self m)) (digest key) <> VNone ->
   Server.get key m
   = (inr (storage_get (Server.storage (Server.self m)) (digest key)),
      Server.record [EvLog INFO "Looking up key %s"; EvDigest key;
                     EvStorageGet (digest key); EvStorageGet (digest key)] m)
   /\ existsb leaves_node (Server.events_of (Server.get key) m) = false)
  /\ (existsb leaves_node (Server.events_of (Server.get key) m) = true ->
      storage_get (Server.storage (Server.self m)) (digest key) = VNone).
Proof.
  assert (Hhit :
    storage_get (Server.storage (Server.self m)) (digest key) <> VNone ->
    existsb leaves_node (Server.events_of (Server.get key) m) = false).
  { intros H.
    rewrite (events_of_record _ _ _ _ _ (get_local_hit key m H) eq_refl).
    reflexivity. }
  split.
  - intros H. split; [apply get_local_hit; exact H | apply Hhit; exact H].
  - intros Hleaves.
    destruct (storage_get (Server.storage (Server.self m)) (digest key)) eqn:E;
      try reflexivity;
      rewrite Hhit in Hleaves by discriminate; discriminate Hleaves.
Qed.

(** C2.  On a server whose routing table knows no contact for the target:
    [get] of a key that the local store does not hold returns [None], having
    created no spider and sent nothing; [set_digest] returns [False], having
    sent nothing and left the local store as it was. *)
Theorem no_neighbors_no_transmission key dkey value m p :
  Server.protocol (Server.self m) = Some p ->
  (storage_get (Server.storage (Server.self m)) (digest key) = VNone ->
   router_find_neighbors p (Node.target (digest key)) None = [] ->
   fst (Server.get key m) = inr VNone
   /\ existsb creates_spider (Server.events_of (Server.get key) m) = false
   /\ existsb transmits (Server.events_of (Server.get key) m) = false)
  /\ (router_find_neighbors p (Node.target dkey) None = [] ->
      fst (Server.set_digest dkey value m) = inr false
      /\ existsb transmits (Server.events_of (Server.set_digest dkey value) m)
         = false
      /\ existsb writes_storage
           (Server.events_of (Server.set_digest dkey value) m) = false
      /\ Server.self (snd (Server.set_digest dkey value m)) = Server.self m).
Proof.
  intros Hp. split.
  - intros Hmiss Hnone.
    pose proof (get_without_neighbors key m p Hp Hmiss Hnone) as Hrun.
    rewrite (events_of_record _ _ _ _ _ Hrun eq_refl). rewrite Hrun.
    repeat split.
  - intros Hnone.
    pose proof (set_digest_without_neighbors dkey value m p Hp Hnone) as Hrun.
    rewrite (events_of_record _ _ _ _ _ Hrun eq_refl). rewrite Hrun.
    repeat split.
Qed.

End LocalOperations.

Section LocalOperationsOnSim.

#[local] Existing Instance Sim.hashing.
#[local] Existing Instance Sim.backend.
#[local] Existing Instance Sim.layer.

Lemma get_short_circuits_on_local_value_witness :
  let st := [(["x"%byte], (10, VBytes ["v"%byte]))] in
  let m := Sim.machine
             (Sim.server st (Sim.Build_Net [Sim.peer "002"%byte "b"] [] [] []))
  in
  Server.get (VStr "x") m
  = (inr (VBytes ["v"%byte]),
     Server.record [EvLog INFO "Looking up key %s"; EvDigest (VStr "x");
                    EvStorageGet ["x"%byte]; EvStorageGet ["x"%byte]] m)
  /\ existsb leaves_node (Server.events_of (Server.get (VStr "x")) m) = false.
Proof.
  intros st m.
  refine (proj1 (get_short_circuits_on_local_value (VStr "x") m) _).
  simpl. discriminate.
Defined.

Lemma no_neighbors_no_transmission_witness :
  let net := Sim.Build_Net [] [] [] [] in
  let m := Sim.machine (Sim.server [] net) in
  (fst (Server.get (VStr "x") m) = inr VNone
   /\ existsb creates_spider (Server.events_of (Server.get (VStr "x")) m)
      = false
   /\ existsb transmits (Server.events_of (Server.get (VStr "x")) m) = false)
  /\ (fst (Server.set_digest ["x"%byte] (VInt 1) m) = inr false
      /\ existsb transmits
           (Server.events_of (Server.set_digest ["x"%byte] (VInt 1)) m) = false
      /\ existsb writes_storage
           (Server.events_of (Server.set_digest ["x"%byte] (VInt 1)) m) = false
      /\ Server.self (snd (Server.set_digest ["x"%byte] (VInt 1) m))
         = Server.self m).
Proof.
  intros net m.
  destruct (no_neighbors_no_transmission
              (VStr "x") ["x"%byte] (VInt 1) m net eq_refl) as [Hget Hset].
  split.
  - apply Hget; reflexivity.
  - apply Hset; reflexivity.
Defined.

End LocalOperationsOnSim.

(** ** [set_digest]: locating the nodes, the local copy, the store calls *)

Section Publishing.

Context {St P : Type}.
Context {hashing : Hashing}.
Context {backend : StorageBackend St}.
Context {layer : ProtocolLayer St P}.

Implicit Types (m : Server.Machine St P) (h : St * P).

Lemma fold_left_max_is_maximum (rest : list Z) (x : Z) :
  Server.is_maximum (fold_left Z.max rest x) (x :: rest).
Proof.
  revert x. induction rest as [|y rest IH]; intros x; simpl.
  - split; [now left | repeat constructor; lia].
  - destruct (IH (Z.max x y)) as [Hin Hall].
    inversion Hall as [|? ? Hmax Hrest]; subst. split.
    + destruct Hin as [Heq|Hin].
      * destruct (Z.max_spec x y) as [[_ E]|[_ E]]; rewrite E in *;
          simpl; tauto.
      * right. right. exact Hin.
    + repeat constructor; try lia. exact Hrest.
Qed.

Lemma py_max_is_maximum (xs : list Z) :
  xs <> [] -> exists biggest, py_max xs = inr biggest
                              /\ Server.is_maximum biggest xs.
Proof.
  destruct xs as [|x rest]; [congruence|]. intros _.
  exists (fold_left Z.max rest x). split; [reflexivity|].
  apply fold_left_max_is_maximum.
Qed.

Lemma gather_store_calls_run nodes dkey value : forall m p,
  Server.protocol (Server.self m) = Some p ->
  gather (map (fun n => Server.protocol_call_store n dkey value) nodes) m
  = (inr (fst (Server.store_calls nodes dkey value
                 (Server.storage (Server.self m), p))),
     Server.settle
       (snd (Server.store_calls nodes dkey value
               (Server.storage (Server.self m), p)))
       (Server.record (map (fun n => EvCallStore n dkey value) nodes) m)).
Proof.
  induction nodes as [|n rest IH]; intros m p Hp; simpl.
  - rewrite record_nil, (settle_same m p Hp). reflexivity.
  - destruct (call_store n dkey value (Server.storage (Server.self m), p))
      as [r h1] eqn:Hcall.
    erewrite bind_inr
      by (unfold Server.protocol_call_store; eapply await_run; eassumption).
    destruct h1 as [st1 p1].
    erewrite bind_inr by (apply (IH _ p1); reflexivity).
    simpl.
    destruct (Server.store_calls rest dkey value (st1, p1)) as [rs h2].
    unfold ret. simpl.
    rewrite <- settle_record, settle_settle, record_record. reflexivity.
Qed.

Lemma store_on_run nodes dkey value m p :
  Server.protocol (Server.self m) = Some p ->
  Server.store_on nodes dkey value m
  = (inr (existsb truthy
            (fst (Server.store_calls nodes dkey value
                    (Server.storage (Server.self m), p)))),
     Server.settle
       (snd (Server.store_calls nodes dkey value
               (Server.storage (Server.self m), p)))
       (Server.record (map (fun n => EvCallStore n dkey value) nodes) m)).
Proof.
  intros Hp. unfold Server.store_on.
  erewrite bind_inr by (apply gather_store_calls_run; exact Hp).
  reflexivity.
Qed.

Lemma store_calls_length nodes dkey value : forall h,
  List.length (fst (Server.store_calls nodes dkey value h))
  = List.length nodes.
Proof.
  induction nodes as [|n rest IH]; intros h; simpl; [reflexivity|].
  destruct (call_store n dkey value h) as [r h1].
  specialize (IH h1).
  destruct (Server.store_calls rest dkey value h1) as [rs h2].
  simpl in *. now rewrite IH.
Qed.

Lemma set_digest_located dkey value m p n0 nearest nodes h :
  let spider := {| sp_node := Node.target dkey; sp_peers := n0 :: nearest;
                   sp_ksize := Server.ksize (Server.self m);
                   sp_alpha := Server.alpha (Server.self m) |} in
  Server.protocol (Server.self m) = Some p ->
  router_find_neighbors p (Node.target dkey) None = n0 :: nearest ->
  node_spider_find spider (Server.storage (Server.self m), p) = (nodes, h) ->
  Server.set_digest dkey value m
  = (biggest <-
       lift_exn
         (py_max (map (fun x => Node.distance_to x (Node.target dkey)) nodes)) ;;
     me <- gets (fun m => Server.node (Server.self m)) ;;
     (if Z.ltb (Node.distance_to me (Node.target dkey)) biggest
      then Server.self_storage_setitem dkey value
      else ret tt) ;;
     Server.store_on nodes dkey value)%py
      (Server.settle h (Server.record (lookup_events dkey spider) m)).
Proof.
  intros spider Hp Hnear Hfind. unfold Server.set_digest.
  erewrite bind_inr by (apply find_neighbors_run; exact Hp).
  rewrite Hnear.
  erewrite bind_inr by (apply new_spider_run).
  erewrite bind_inr
    by (unfold Server.find_nodes; eapply await_run; [exact Hp|exact Hfind]).
  unfold Server.log, Server.emit.
  unfold bind at 1. unfold modify at 1.
  rewrite !settle_record, !record_record. reflexivity.
Qed.

(** The run of [set_digest] when the lookup has found at least one node. *)
Lemma set_digest_run dkey value m p n0 nearest nodes h biggest :
  let target := Node.target dkey in
  let spider := {| sp_node := target; sp_peers := n0 :: nearest;
                   sp_ksize := Server.ksize (Server.self m);
                   sp_alpha := Server.alpha (Server.self m) |} in
  let closer := Z.ltb (Node.distance_to (Server.node (Server.self m)) target)
                      biggest in
  let h1 := if closer then (storage_setitem (fst h) dkey value, snd h) else h in
  Server.protocol (Server.self m) = Some p ->
  router_find_neighbors p target None = n0 :: nearest ->
  node_spider_find spider (Server.storage (Server.self m), p) = (nodes, h) ->
  py_max (map (fun x => Node.distance_to x target) nodes) = inr biggest ->
  Server.set_digest dkey value m
  = (inr (existsb truthy (fst (Server.store_calls nodes dkey value h1))),
     Server.settle (snd (Server.store_calls nodes dkey value h1))
       (Server.record
          (lookup_events dkey spider
           ++ (if closer then [EvStorageSet dkey value] else [])
           ++ map (fun n => EvCallStore n dkey value) nodes) m)).
Proof.
  intros target spider closer h1 Hp Hnear Hfind Hmax.
  rewrite (set_digest_located dkey value m p n0 nearest nodes h Hp Hnear Hfind).
  fold target. fold spider. rewrite Hmax.
  unfold lift_exn at 1. unfold bind at 1. unfold gets at 1. unfold bind at 1.
  simpl Server.node. fold closer. subst h1.
  destruct h as [st1 p1]. destruct closer.
  - unfold Server.self_storage_setitem, Server.emit.
    unfold bind at 1 2. unfold modify.
    erewrite store_on_run by reflexivity. simpl fst. simpl snd.
    f_equal. unfold Server.settle, Server.record, Server.with_self. simpl.
    rewrite <- !app_assoc. reflexivity.
  - unfold bind at 1. unfold ret at 1.
    erewrite store_on_run by reflexivity. simpl fst. simpl snd.
    f_equal. unfold Server.settle, Server.record, Server.with_self. simpl.
    rewrite <- !app_assoc. reflexivity.
Qed.

End Publishing.

Section PublishingClaims.

Context {St P : Type}.
Context {hashing : Hashing}.
Context {backend : StorageBackend St}.
Context {layer : ProtocolLayer St P}.

Implicit Types (m : Server.Machine St P) (h : St * P).

Lemma filter_map_all {A B : Type} (f : B -> bool) (g : A -> B) (l : list A) :
  (forall x, f (g x) = true) -> filter f (map g l) = map g l.
Proof.
  intros H. induction l as [|x l IH]; simpl; [reflexivity|].
  now rewrite H, IH.
Qed.

(** With at least one located node, [set_digest] reaches its store phase, on
    a machine to whose trace no [store] call has been added yet. *)
Lemma set_digest_stores_locally_or_not dkey value m p n0 nearest nodes h :
  let target := Node.target dkey in
  let spider := {| sp_node := target; sp_peers := n0 :: nearest;
                   sp_ksize := Server.ksize (Server.self m);
                   sp_alpha := Server.alpha (Server.self m) |} in
  Server.protocol (Server.self m) = Some p ->
  router_find_neighbors p target None = n0 :: nearest ->
  node_spider_find spider (Server.storage (Server.self m), p) = (nodes, h) ->
  nodes <> [] ->
  exists m2,
    Server.set_digest dkey value m = Server.store_on nodes dkey value m2
    /\ Server.protocol (Server.self m2) = Some (snd h)
    /\ exists pre, Server.trace m2 = (Server.trace m ++ pre)%list
                   /\ filter is_call_store pre = [].
Proof.
  intros target spider Hp Hnear Hfind Hnodes.
  destruct (py_max_is_maximum
              (map (fun x => Node.distance_to x target) nodes))
    as [biggest [Hmax _]].
  { destruct nodes; [congruence | discriminate]. }
  rewrite (set_digest_located dkey value m p n0 nearest nodes h
             Hp Hnear Hfind).
  fold target. fold spider. rewrite Hmax.
  unfold lift_exn at 1. unfold bind at 1. unfold gets at 1. unfold bind at 1.
  destruct (Z.ltb _ biggest).
  - eexists. split; [reflexivity|]. split; [reflexivity|].
    exists (lookup_events dkey spider ++ [EvStorageSet dkey value])%list.
    split; [|reflexivity]. simpl. now rewrite <- app_assoc.
  - eexists. split; [reflexivity|]. split; [reflexivity|].
    exists (lookup_events dkey spider). split; reflexivity.
Qed.

(** C4.  When the lookup of [set_digest] returns the nodes [nodes] (at least
    one), the value is written to the local store exactly when the distance
    of this node to the key is strictly below the greatest distance of a
    located node to the key; the store phase then starts on the store with
    the value written, and otherwise on the store as the lookup left it. *)
Theorem set_digest_stores_locally_iff_closer
        dkey value m p n0 nearest nodes h :
  let target := Node.target dkey in
  let spider := {| sp_node := target; sp_peers := n0 :: nearest;
                   sp_ksize := Server.ksize (Server.self m);
                   sp_alpha := Server.alpha (Server.self m) |} in
  let located :=
    Server.settle h (Server.record (lookup_events dkey spider) m) in
  let mine := Node.distance_to (Server.node (Server.self m)) target in
  Server.protocol (Server.self m) = Some p ->
  router_find_neighbors p target None = n0 :: nearest ->
  node_spider_find spider (Server.storage (Server.self m), p) = (nodes, h) ->
  nodes <> [] ->
  exists biggest,
    Server.is_maximum biggest (map (fun x => Node.distance_to x target) nodes)
    /\ (In (EvStorageSet dkey value)
           (Server.events_of (Server.set_digest dkey value) m)
        <-> mine < biggest)
    /\ (mine < biggest ->
        Server.set_digest dkey value m
        = Server.store_on nodes dkey value
            (Server.record [EvStorageSet dkey value]
               (Server.with_self
                  (Server.set_storage (storage_setitem (fst h) dkey value))
                  located)))
    /\ (biggest <= mine ->
        Server.set_digest dkey value m
        = Server.store_on nodes dkey value located).
Proof.
  intros target spider located mine Hp Hnear Hfind Hnodes.
  destruct (py_max_is_maximum
              (map (fun x => Node.distance_to x target) nodes))
    as [biggest [Hmax His]].
  { destruct nodes; [congruence | discriminate]. }
  exists biggest. split; [exact His|]. split; [|split].
  - pose proof (set_digest_run dkey value m p n0 nearest nodes h biggest
                  Hp Hnear Hfind Hmax) as Hrun.
    rewrite (events_of_record _ _ _ _ (Server.settle _ m) Hrun eq_refl).
    fold target. fold mine. rewrite !in_app_iff, in_map_iff.
    destruct (Z.ltb_spec mine biggest) as [Hlt|Hge]; split.
    + intros _. exact Hlt.
    + intros _. right. left. now left.
    + intros [Hin|[[]|[n [Hn _]]]]; [|discriminate Hn].
      simpl in Hin. intuition discriminate.
    + intros Hlt. lia.
  - intros Hlt.
    rewrite (set_digest_located dkey value m p n0 nearest nodes h
               Hp Hnear Hfind).
    fold target. fold spider. fold located. rewrite Hmax.
    unfold lift_exn at 1. unfold bind at 1. unfold gets at 1. unfold bind at 1.
    change (Server.node (Server.self located)) with (Server.node (Server.self m)).
    fold mine. apply Z.ltb_lt in Hlt. rewrite Hlt.
    destruct h. reflexivity.
  - intros Hge.
    rewrite (set_digest_located dkey value m p n0 nearest nodes h
               Hp Hnear Hfind).
    fold target. fold spider. fold located. rewrite Hmax.
    unfold lift_exn at 1. unfold bind at 1. unfold gets at 1. unfold bind at 1.
    change (Server.node (Server.self located)) with (Server.node (Server.self m)).
    fold mine. apply Z.ltb_ge in Hge. rewrite Hge. reflexivity.
Qed.

(** [any] of line 128 looks at the truth value of what each call resolves
    to, and a non-empty tuple is true whatever it holds: [any] of a
    non-empty list of pairs is [True]. *)
Lemma any_of_tuples_is_true (results : list Value) :
  results <> [] ->
  Forall (fun r => exists x items, r = VTuple (x :: items)) results ->
  existsb truthy results = true.
Proof.
  destruct results as [|r rest]; [congruence|]. intros _ Hall.
  inversion Hall as [|? ? [x [items ->]] _]; subst. reflexivity.
Qed.

(** C5.  When [set_digest] reaches the store phase with the located nodes
    [nodes], it issues exactly one [store] call to each of them, in order,
    and returns [any] of what the calls resolve to (line 128); [results]
    are these values.  A call resolves to a pair, [(True, result)] or
    [(False, None)], and a pair is true whatever it holds: [set_digest]
    returns [True] whenever the calls resolve to such outcomes, also when
    every one of them has timed out and no store has succeeded, where the
    claim has it return success only if a store call succeeded. *)
Theorem set_digest_returns_true_when_every_store_times_out
        dkey value m p n0 nearest nodes h :
  let target := Node.target dkey in
  let spider := {| sp_node := target; sp_peers := n0 :: nearest;
                   sp_ksize := Server.ksize (Server.self m);
                   sp_alpha := Server.alpha (Server.self m) |} in
  Server.protocol (Server.self m) = Some p ->
  router_find_neighbors p target None = n0 :: nearest ->
  node_spider_find spider (Server.storage (Server.self m), p) = (nodes, h) ->
  nodes <> [] ->
  exists m2 p2 results,
    Server.set_digest dkey value m = Server.store_on nodes dkey value m2
    /\ Server.protocol (Server.self m2) = Some p2
    /\ results = fst (Server.store_calls nodes dkey value
                        (Server.storage (Server.self m2), p2))
    /\ List.length results = List.length nodes
    /\ filter is_call_store (Server.events_of (Server.set_digest dkey value) m)
       = map (fun n => EvCallStore n dkey value) nodes
    /\ Server.events_of (Server.store_on nodes dkey value) m2
       = map (fun n => EvCallStore n dkey value) nodes
    /\ fst (Server.set_digest dkey value m) = inr (existsb truthy results)
    /\ (Forall is_rpc_outcome results ->
        fst (Server.set_digest dkey value m) = inr true)
    /\ (Forall (fun r => r = rpc_timed_out) results ->
        existsb rpc_succeeded results = false
        /\ fst (Server.set_digest dkey value m) = inr true).
Proof.
  intros target spider Hp Hnear Hfind Hnodes.
  destruct (set_digest_stores_locally_or_not dkey value m p n0 nearest nodes h
              Hp Hnear Hfind Hnodes) as [m2 [Hrun [Hp2 Htr]]].
  exists m2, (snd h).
  pose proof (store_on_run nodes dkey value m2 (snd h) Hp2) as Hstore.
  eexists. split; [exact Hrun|]. split; [exact Hp2|]. split; [reflexivity|].
  split; [apply store_calls_length|].
  assert (Hev : Server.events_of (Server.store_on nodes dkey value) m2
                = map (fun n => EvCallStore n dkey value) nodes).
  { exact (events_of_record _ _ _ _ (Server.settle _ m2) Hstore eq_refl). }
  split; [|split; [exact Hev|]].
  - destruct Htr as [pre [Htrace Hpre]].
    unfold Server.events_of in *. rewrite Hrun. rewrite Hstore in *.
    simpl in *. rewrite Htrace in *.
    rewrite <- app_assoc, skipn_app, skipn_all, Nat.sub_diag. simpl.
    rewrite filter_app, Hpre. simpl.
    apply filter_map_all. reflexivity.
  - rewrite Hrun, Hstore. cbn [fst].
    assert (Hne : fst (Server.store_calls nodes dkey value
                         (Server.storage (Server.self m2), snd h)) <> []).
    { intros Hnil. apply Hnodes, length_zero_iff_nil.
      rewrite <- (store_calls_length nodes dkey value
                    (Server.storage (Server.self m2), snd h)), Hnil.
      reflexivity. }
    assert (Hpairs : Forall is_rpc_outcome
                       (fst (Server.store_calls nodes dkey value
                               (Server.storage (Server.self m2), snd h))) ->
                     existsb truthy
                       (fst (Server.store_calls nodes dkey value
                               (Server.storage (Server.self m2), snd h)))
                     = true).
    { intros Hall. apply any_of_tuples_is_true; [exact Hne|].
      eapply Forall_impl; [|exact Hall].
      intros r [->|[result ->]]; eexists; eexists; reflexivity. }
    split; [reflexivity|]. split.
    + intros Hall. now rewrite (Hpairs Hall).
    + intros Hall. split.
      * clear Hne Hpairs Hstore Hev.
        induction Hall as [|r rest -> _ IH]; [reflexivity | exact IH].
      * rewrite Hpairs; [reflexivity|].
        eapply Forall_impl; [|exact Hall]. intros r ->. now left.
Qed.

End PublishingClaims.

Section PublishingOnSim.

#[local] Existing Instance Sim.hashing.
#[local] Existing Instance Sim.backend.
#[local] Existing Instance Sim.layer.

(** This node has id 0x01 and the key digest is 0x78: its distance is 0x79.
    The contacts 0x02 and 0x7a are at distances 0x7a and 0x02. *)
Lemma set_digest_stores_locally_iff_closer_witness :
  let far := Sim.peer "002"%byte "b" in
  let near := Sim.peer "z"%byte "c" in
  let net := Sim.Build_Net [far; near] [] [] [] in
  let m := Sim.machine (Sim.server [] net) in
  exists biggest,
    Server.is_maximum biggest [122; 2]
    /\ (In (EvStorageSet ["x"%byte] (VInt 1))
           (Server.events_of (Server.set_digest ["x"%byte] (VInt 1)) m)
        <-> 121 < biggest).
Proof.
  intros far near net m.
  destruct (set_digest_stores_locally_iff_closer
              (backend:=Sim.backend) (layer:=Sim.layer)
              ["x"%byte] (VInt 1) m net far [near] [far; near] ([], net)
              eq_refl eq_refl eq_refl ltac:(discriminate))
    as [biggest [Hmax [Hiff _]]].
  exists biggest. split; [exact Hmax | exact Hiff].
Defined.

End PublishingOnSim.

Section PublishingOnLossyNetwork.

#[local] Existing Instance Sim.hashing.
#[local] Existing Instance Sim.backend.
#[local] Existing Instance lossy_layer.

(** The key digest is 0x78; the contacts 0x7a and 0x02, at distances 0x02
    and 0x7a, are both located, nearest first, and neither answers the
    [store]: both calls resolve to [(False, None)] and [set_digest] returns
    [True]. *)
Lemma set_digest_returns_true_when_every_store_times_out_witness :
  let near := Sim.peer "z"%byte "c" in
  let far := Sim.peer "002"%byte "b" in
  let net := Sim.Build_Net [near; far] [] [] [] in
  let m := Sim.machine (Sim.server [] net) in
  exists results,
    filter is_call_store
           (Server.events_of (Server.set_digest ["x"%byte] (VInt 1)) m)
    = [EvCallStore near ["x"%byte] (VInt 1);
       EvCallStore far ["x"%byte] (VInt 1)]
    /\ results = [rpc_timed_out; rpc_timed_out]
    /\ fst (Server.set_digest ["x"%byte] (VInt 1) m)
       = inr (existsb truthy results)
    /\ existsb rpc_succeeded results = false
    /\ fst (Server.set_digest ["x"%byte] (VInt 1) m) = inr true.
Proof.
  intros near far net m.
  destruct (set_digest_returns_true_when_every_store_times_out
              (backend:=Sim.backend) (layer:=lossy_layer)
              ["x"%byte] (VInt 1) m net near [far] [near; far] ([], net)
              eq_refl eq_refl eq_refl ltac:(discriminate))
    as [m2 [p2 [results [_ [_ [Hres [_ [Hcalls [_ [Hany [_ Hout]]]]]]]]]]].
  exists results. split; [exact Hcalls|].
  assert (Hall : results = [rpc_timed_out; rpc_timed_out])
    by (rewrite Hres; reflexivity).
  split; [exact Hall|]. split; [exact Hany|].
  apply Hout. rewrite Hall. repeat constructor.
Defined.

End PublishingOnLossyNetwork.

(** ** Exceptions of the public operations *)

Section Exceptions.

Context {St P : Type}.
Context {hashing : Hashing}.
Context {backend : StorageBackend St}.
Context {layer : ProtocolLayer St P}.

Implicit Types (m : Server.Machine St P) (h : St * P).

Lemma set_digest_max_of_no_node dkey value m p n0 nearest h :
  let spider := {| sp_node := Node.target dkey; sp_peers := n0 :: nearest;
                   sp_ksize := Server.ksize (Server.self m);
                   sp_alpha := Server.alpha (Server.self m) |} in
  Server.protocol (Server.self m) = Some p ->
  router_find_neighbors p (Node.target dkey) None = n0 :: nearest ->
  node_spider_find spider (Server.storage (Server.self m), p) = ([], h) ->
  Server.set_digest dkey value m
  = (inl (ValueError "max() arg is an empty sequence"),
     Server.settle h (Server.record (lookup_events dkey spider) m)).
Proof.
  intros spider Hp Hnear Hfind.
  rewrite (set_digest_located dkey value m p n0 nearest [] h Hp Hnear Hfind).
  reflexivity.
Qed.

(** Before [listen] there is no protocol: a [get] that misses the local
    store raises [AttributeError]. *)
Lemma get_before_listen_raises key m :
  Server.protocol (Server.self m) = None ->
  storage_get (Server.storage (Server.self m)) (digest key) = VNone ->
  fst (Server.get key m)
  = inl (AttributeError "'NoneType' object has no attribute 'router'").
Proof.
  intros Hp Hmiss. rewrite (get_local_miss key m Hmiss).
  unfold Server.find_neighbors, Server.self_protocol, bind. simpl.
  rewrite Hp. reflexivity.
Qed.

(** C3 (what the code does).  When the routing table gives neighbors for the
    key but the lookup comes back with no node (no neighbor answered),
    [max] of line 124 is applied to an empty list: [set_digest] raises
    [ValueError], and so does [set] for a value of an allowed type. *)
Theorem set_digest_raises_when_no_node_is_located
        dkey value m p n0 nearest h :
  let spider := {| sp_node := Node.target dkey; sp_peers := n0 :: nearest;
                   sp_ksize := Server.ksize (Server.self m);
                   sp_alpha := Server.alpha (Server.self m) |} in
  Server.protocol (Server.self m) = Some p ->
  router_find_neighbors p (Node.target dkey) None = n0 :: nearest ->
  node_spider_find spider (Server.storage (Server.self m), p) = ([], h) ->
  fst (Server.set_digest dkey value m)
  = inl (ValueError "max() arg is an empty sequence")
  /\ (forall key,
      digest key = dkey -> check_dht_value_type value = true ->
      fst (Server.set key value m)
      = inl (ValueError "max() arg is an empty sequence")).
Proof.
  intros spider Hp Hnear Hfind. split.
  - now rewrite (set_digest_max_of_no_node dkey value m p n0 nearest h
                   Hp Hnear Hfind).
  - intros key Hkey Hcheck.
    rewrite (set_runs_set_digest key value m Hcheck), Hkey.
    now rewrite (set_digest_max_of_no_node dkey value
                   (Server.record
                      [EvLog INFO "setting '%s' = '%s' on network";
                       EvDigest key] m)
                   p n0 nearest h Hp Hnear Hfind).
Qed.

End Exceptions.

Section ExceptionsOnSim.

#[local] Existing Instance Sim.hashing.
#[local] Existing Instance Sim.backend.
#[local] Existing Instance Sim.layer.

(** The only contact, 0x02, no longer answers. *)
Lemma set_digest_raises_when_no_node_is_located_witness :
  let gone := Sim.peer "002"%byte "b" in
  let net := Sim.Build_Net [gone] [2] [] [] in
  let m := Sim.machine (Sim.server [] net) in
  fst (Server.set_digest ["x"%byte] (VInt 1) m)
  = inl (ValueError "max() arg is an empty sequence")
  /\ fst (Server.set (VStr "x") (VInt 1) m)
     = inl (ValueError "max() arg is an empty sequence").
Proof.
  intros gone net m.
  destruct (set_digest_raises_when_no_node_is_located
              (hashing:=Sim.hashing) (backend:=Sim.backend) (layer:=Sim.layer)
              ["x"%byte] (VInt 1) m net gone [] ([], net)
              eq_refl eq_refl eq_refl) as [Hdigest Hset].
  split; [exact Hdigest|].
  apply (Hset (VStr "x")); reflexivity.
Defined.

End ExceptionsOnSim.

(** ** [bootstrap] *)

Section Bootstrap.

Context {St P : Type}.
Context {hashing : Hashing}.
Context {backend : StorageBackend St}.
Context {layer : ProtocolLayer St P}.

Implicit Types (m : Server.Machine St P) (h : St * P).

Lemma bootstrap_node_run addr m p r h :
  Server.protocol (Server.self m) = Some p ->
  ping addr (Node.id (Server.node (Server.self m)))
       (Server.storage (Server.self m), p) = (r, h) ->
  Server.bootstrap_node addr m
  = (inr (if fst r
          then Some (Node.new (snd r) (Some (fst addr)) (Some (snd addr)))
          else None),
     Server.settle h
       (Server.record
          [EvPing addr (Node.id (Server.node (Server.self m)))] m)).
Proof.
  intros Hp Hping. unfold Server.bootstrap_node.
  unfold bind at 1. unfold gets at 1.
  erewrite bind_inr
    by (unfold Server.protocol_ping; eapply await_run; eassumption).
  reflexivity.
Qed.

Lemma ping_calls_length addrs sender : forall h,
  List.length (fst (Server.ping_calls addrs sender h)) = List.length addrs.
Proof.
  induction addrs as [|a rest IH]; intros h; simpl; [reflexivity|].
  destruct (ping a sender h) as [r h1]. specialize (IH h1).
  destruct (Server.ping_calls rest sender h1) as [rs h2].
  simpl in *. now rewrite IH.
Qed.

Lemma gather_bootstrap_nodes_run addrs : forall m p,
  Server.protocol (Server.self m) = Some p ->
  let sender := Node.id (Server.node (Server.self m)) in
  let answers :=
    Server.ping_calls addrs sender (Server.storage (Server.self m), p) in
  gather (map Server.bootstrap_node addrs) m
  = (inr (map (fun ar : Addr * (bool * Bytes) =>
                 if fst (snd ar)
                 then Some (Node.new (snd (snd ar)) (Some (fst (fst ar)))
                                     (Some (snd (fst ar))))
                 else None)
              (combine addrs (fst answers))),
     Server.settle (snd answers)
       (Server.record (map (fun a => EvPing a sender) addrs) m)).
Proof.
  induction addrs as [|a rest IH]; intros m p Hp sender answers.
  - subst answers. simpl. rewrite record_nil, (settle_same m p Hp).
    reflexivity.
  - subst answers. simpl.
    destruct (ping a sender (Server.storage (Server.self m), p))
      as [r [st1 p1]] eqn:Hping.
    erewrite bind_inr by (eapply bootstrap_node_run; eassumption).
    erewrite bind_inr by (apply (IH _ p1); reflexivity).
    simpl. fold sender.
    destruct (Server.ping_calls rest sender (st1, p1)) as [rs h2].
    unfold ret. simpl.
    rewrite <- settle_record, settle_settle, record_record. reflexivity.
Qed.

Lemma not_none_map_flat_map {A B : Type} (f : A -> option B) (l : list A) :
  not_none (map f l)
  = flat_map (fun x => match f x with Some y => [y] | None => [] end) l.
Proof.
  induction l as [|x l IH]; simpl; [reflexivity|].
  destruct (f x); simpl; now rewrite IH.
Qed.

(** C10.  [bootstrap] pings every address given, in order, and hands its
    spider, as seeds, one node for each address whose ping succeeded, made of
    the id the ping returned and of that address; an address whose ping
    failed gives no seed.  [bootstrap_node] yields that node, or [None] when
    the ping failed. *)
Theorem bootstrap_seeds_the_spider_with_answering_nodes addrs m p :
  Server.protocol (Server.self m) = Some p ->
  let sender := Node.id (Server.node (Server.self m)) in
  let answers :=
    Server.ping_calls addrs sender (Server.storage (Server.self m), p) in
  let seeds :=
    flat_map (fun ar : Addr * (bool * Bytes) =>
                if fst (snd ar)
                then [Node.new (snd (snd ar)) (Some (fst (fst ar)))
                               (Some (snd (fst ar)))]
                else [])
             (combine addrs (fst answers)) in
  let spider := {| sp_node := Server.node (Server.self m); sp_peers := seeds;
                   sp_ksize := Server.ksize (Server.self m);
                   sp_alpha := Server.alpha (Server.self m) |} in
  List.length (fst answers) = List.length addrs
  /\ Server.bootstrap addrs m
     = Server.find_nodes spider
         (Server.settle (snd answers)
            (Server.record
               (EvLog DEBUG
                      "Attempting to bootstrap node with %i initial contacts"
                :: map (fun a => EvPing a sender) addrs
                ++ [EvSpiderNew NodeSpiderCrawl spider]) m))
  /\ filter is_ping (Server.events_of (Server.bootstrap addrs) m)
     = map (fun a => EvPing a sender) addrs
  /\ (forall addr m1 p1 ok rid h1,
      Server.protocol (Server.self m1) = Some p1 ->
      ping addr (Node.id (Server.node (Server.self m1)))
           (Server.storage (Server.self m1), p1) = ((ok, rid), h1) ->
      fst (Server.bootstrap_node addr m1)
      = inr (if ok
             then Some (Node.new rid (Some (fst addr)) (Some (snd addr)))
             else None)).
Proof.
  intros Hp sender answers seeds spider.
  assert (Hrun :
    Server.bootstrap addrs m
    = Server.find_nodes spider
        (Server.settle (snd answers)
           (Server.record
              (EvLog DEBUG
                     "Attempting to bootstrap node with %i initial contacts"
               :: map (fun a => EvPing a sender) addrs
               ++ [EvSpiderNew NodeSpiderCrawl spider]) m))).
  { unfold Server.bootstrap, Server.log, Server.emit.
    unfold bind at 1. unfold modify at 1.
    erewrite bind_inr by (apply (gather_bootstrap_nodes_run addrs _ p); exact Hp).
    rewrite not_none_map_flat_map.
    unfold bind at 1. unfold gets at 1.
    erewrite bind_inr by (apply new_spider_run).
    simpl Server.node. simpl Server.ksize. simpl Server.alpha.
    simpl Server.storage. fold sender. fold answers.
    assert (Hseeds : forall l,
      flat_map (fun x : Addr * (bool * Bytes) =>
                  match
                    (if fst (snd x)
                     then Some (Node.new (snd (snd x)) (Some (fst (fst x)))
                                         (Some (snd (fst x))))
                     else None)
                  with
                  | Some y => [y]
                  | None => []
                  end) l
      = flat_map (fun ar : Addr * (bool * Bytes) =>
                    if fst (snd ar)
                    then [Node.new (snd (snd ar)) (Some (fst (fst ar)))
                                   (Some (snd (fst ar)))]
                    else []) l).
    { intros l. apply flat_map_ext. intros [a [[] rid]]; reflexivity. }
    rewrite Hseeds. fold seeds. fold spider.
    rewrite <- !settle_record, !record_record. reflexivity. }
  split; [apply ping_calls_length|]. split; [exact Hrun|]. split.
  - destruct (snd answers) as [st1 p1] eqn:Hanswers.
    destruct (node_spider_find spider (st1, p1)) as [found h2] eqn:Hfind.
    assert (Hfull :
      Server.bootstrap addrs m
      = (inr found,
         Server.record
           ((EvLog DEBUG
                   "Attempting to bootstrap node with %i initial contacts"
             :: map (fun a => EvPing a sender) addrs
             ++ [EvSpiderNew NodeSpiderCrawl spider])
            ++ [EvSpiderFind NodeSpiderCrawl spider])
           (Server.settle h2 m))).
    { rewrite Hrun. unfold Server.find_nodes.
      erewrite await_run; [|reflexivity|exact Hfind].
      rewrite <- !settle_record, settle_settle, record_record. reflexivity. }
    rewrite (events_of_record _ _ _ _ _ Hfull eq_refl).
    simpl. rewrite !filter_app. simpl. rewrite !app_nil_r.
    apply filter_map_all. reflexivity.
  - intros addr m1 p1 ok rid h1 Hp1 Hping.
    now rewrite (bootstrap_node_run addr m1 p1 (ok, rid) h1 Hp1 Hping).
Qed.

End Bootstrap.

Section BootstrapOnSim.

#[local] Existing Instance Sim.hashing.
#[local] Existing Instance Sim.backend.
#[local] Existing Instance Sim.layer.

(** The host b answers the ping with its id 0x02; the host c does not
    answer. *)
Lemma bootstrap_seeds_the_spider_with_answering_nodes_witness :
  let b := ("b", 8468) in
  let c := ("c", 8468) in
  let net := Sim.Build_Net [] [] [] [(b, ["002"%byte])] in
  let m := Sim.machine (Sim.server [] net) in
  filter is_ping (Server.events_of (Server.bootstrap [b; c]) m)
  = [EvPing b ["001"%byte]; EvPing c ["001"%byte]]
  /\ fst (Server.bootstrap [b; c] m) = inr [Sim.peer "002"%byte "b"]
  /\ fst (Server.bootstrap_node b m) = inr (Some (Sim.peer "002"%byte "b"))
  /\ fst (Server.bootstrap_node c m) = inr None.
Proof.
  intros b c net m.
  destruct (bootstrap_seeds_the_spider_with_answering_nodes
              (layer:=Sim.layer) [b; c] m net eq_refl)
    as [_ [Hrun [Hpings Hnode]]].
  split; [exact Hpings|]. split; [rewrite Hrun; reflexivity|]. split.
  - exact (Hnode b m net true ["002"%byte] ([], net) eq_refl eq_refl).
  - exact (Hnode c m net false [] ([], net) eq_refl eq_refl).
Defined.

End BootstrapOnSim.

(** ** The options of the server *)

Section Options.

Context {St P : Type}.
Context {hashing : Hashing}.
Context {backend : StorageBackend St}.
Context {layer : ProtocolLayer St P}.

Implicit Types (m : Server.Machine St P).

Lemma accepts_keyword_In name :
  Server.accepts_keyword name = true
  <-> In name ["ksize"; "alpha"; "node_id"; "storage"].
Proof.
  unfold Server.accepts_keyword. rewrite existsb_exists. simpl. split.
  - intros [x [Hin Heq]]. apply String.eqb_eq in Heq. subst x. exact Hin.
  - intros Hin. exists name. split; [exact Hin | apply String.eqb_refl].
Qed.

Lemma refresh_table_run m :
  Server.refresh_table m
  = (inr tt,
     {| Server.self :=
          Server.set_refresh_loop
            (Some {| delay := 3600; callback := Cb_refresh_table |})
            (Server.self m);
        Server.ready := (Server.ready m ++ [Co_refresh_table])%list;
        Server.timers :=
          (Server.timers m
           ++ [{| delay := 3600; callback := Cb_refresh_table |}])%list;
        Server.trace :=
          (Server.trace m
           ++ [EvLog DEBUG "Refreshing routing table";
               EvEnsureFuture Co_refresh_table;
               EvCallLater {| delay := 3600; callback := Cb_refresh_table |}])
          %list
     |}).
Proof.
  unfold Server.refresh_table, Server.log, Server.ensure_future,
    Server.call_later, Server.emit, bind, modify, ret. simpl.
  rewrite <- !app_assoc. reflexivity.
Qed.

(** C7, as amended.  The constructor has exactly the parameters ksize
    (default 20), alpha (default 3), node_id (default: the digest of 255
    random bits) and storage (default: a new [ForgetfulStorage]); a call
    with any other keyword raises [TypeError].  There is no option for the
    RPC timeout nor for the refresh interval: whatever the options, the
    refresh timer is set to 3600 seconds and entries older than 3600 seconds
    are published again. *)
Theorem server_options_are_the_init_parameters :
  (forall name,
     Server.accepts_keyword name = true
     <-> In name ["ksize"; "alpha"; "node_id"; "storage"])
  /\ (forall names,
        Server.bind_keywords names = inr tt
        <-> Forall (fun name => In name ["ksize"; "alpha"; "node_id"; "storage"])
                   names)
  /\ (forall rnd,
        Server.__init__ None None None None rnd
        = Server.mk 20 3 ForgetfulStorage (Node.target (digest (VInt rnd)))
                    (@None P) None)
  /\ (forall k a b bs st rnd,
        Server.__init__ (Some k) (Some a) (Some (b :: bs)) (Some st) rnd
        = Server.mk k a st (Node.target (b :: bs)) (@None P) None)
  /\ (forall k a id st rnd m,
        Server.self m = Server.__init__ k a id st rnd ->
        Server.timers (snd (Server.refresh_table m))
        = (Server.timers m
           ++ [{| delay := 3600; callback := Cb_refresh_table |}])%list)
  /\ Server.republish_age = 3600.
Proof.
  split; [exact accepts_keyword_In|]. split; [|split; [|split; [|split]]].
  - induction names as [|name rest IH]; simpl.
    + split; [constructor | reflexivity].
    + destruct (Server.accepts_keyword name) eqn:E.
      * rewrite IH. split.
        -- intros H. constructor; [now apply accepts_keyword_In | exact H].
        -- intros H. now inversion H.
      * split; [discriminate|]. intros H. inversion H as [|? ? Hin _]; subst.
        apply accepts_keyword_In in Hin. congruence.
  - reflexivity.
  - reflexivity.
  - intros k a id st rnd m _. now rewrite refresh_table_run.
  - reflexivity.
Qed.

End Options.

(** C7, as the claim states it, fails: [rpc_timeout] and [refresh_interval]
    are listed by the specification and are no parameters of [__init__],
    which raises [TypeError] for them; [storage] is a parameter and is not
    listed. *)
Lemma spec_options_differ_from_init_parameters :
  Server.accepts_keyword "rpc_timeout" = false
  /\ Server.bind_keywords ["rpc_timeout"]
     = inl (TypeError "__init__() got an unexpected keyword argument")
  /\ Server.accepts_keyword "refresh_interval" = false
  /\ (Server.accepts_keyword "storage" = true /\ ~ In "storage" spec_options)
  /\ ~ (forall name,
          Server.accepts_keyword name = true <-> In name spec_options).
Proof.
  repeat split.
  - simpl. intuition discriminate.
  - intros H. destruct (H "rpc_timeout") as [_ H2].
    assert (Hin : In "rpc_timeout" spec_options) by (simpl; auto).
    apply H2 in Hin. discriminate Hin.
Qed.

Section OptionsOnSim.

#[local] Existing Instance Sim.hashing.
#[local] Existing Instance Sim.backend.
#[local] Existing Instance Sim.layer.

Lemma server_options_are_the_init_parameters_witness :
  Server.bind_keywords ["ksize"; "storage"] = inr tt
  /\ Server.__init__ None None None None 7
     = Server.mk 20 3 [] (Node.target ["007"%byte]) (@None Sim.Net) None
  /\ Server.timers
       (snd (Server.refresh_table
               (Sim.machine (Server.__init__ (Some 8) None None None 7))))
     = [{| delay := 3600; callback := Cb_refresh_table |}].
Proof.
  destruct (server_options_are_the_init_parameters
              (P:=Sim.Net) (hashing:=Sim.hashing) (backend:=Sim.backend))
    as [_ [Hbind [Hdefault [_ [Htimer _]]]]].
  split; [|split].
  - apply Hbind.
    constructor; [simpl; tauto | constructor; [simpl; tauto | constructor]].
  - exact (Hdefault 7).
  - exact (Htimer (Some 8) None None None 7
                  (Sim.machine (Server.__init__ (Some 8) None None None 7))
                  eq_refl).
Defined.

End OptionsOnSim.

(** ** The maintenance task *)

Section Maintenance.

Context {St P : Type}.
Context {hashing : Hashing}.
Context {backend : StorageBackend St}.
Context {layer : ProtocolLayer St P}.

Implicit Types (m : Server.Machine St P) (h : St * P).

Lemma get_refresh_ids_run m p ids p1 :
  Server.protocol (Server.self m) = Some p ->
  get_refresh_ids p = (ids, p1) ->
  Server.protocol_get_refresh_ids m
  = (inr ids,
     Server.settle (Server.storage (Server.self m), p1)
                   (Server.record [EvGetRefreshIds] m)).
Proof.
  intros Hp Hids.
  unfold Server.protocol_get_refresh_ids, Server.self_protocol, bind.
  rewrite Hp. simpl. rewrite Hids. reflexivity.
Qed.

Lemma republish_nil m : Server.republish [] m = (inr tt, m).
Proof. reflexivity. Qed.

(** An entry whose [set_digest] returns is followed by the next entry. *)
Lemma republish_cons_returns dkey value rest m b m' :
  Server.set_digest dkey value m = (inr b, m') ->
  Server.republish ((dkey, value) :: rest) m = Server.republish rest m'.
Proof.
  intros Hset. unfold Server.republish. simpl for_each.
  unfold bind. simpl. rewrite Hset.
  destruct (for_each rest _ m') as [[e|ys] m'']; reflexivity.
Qed.

(** An entry whose [set_digest] raises ends the loop: the entries after it
    are not published. *)
Lemma republish_cons_raises dkey value rest m e m' :
  Server.set_digest dkey value m = (inl e, m') ->
  Server.republish ((dkey, value) :: rest) m = (inl e, m').
Proof.
  intros Hset. unfold Server.republish. simpl for_each.
  unfold bind. simpl. rewrite Hset. reflexivity.
Qed.

(** With no stale bucket, the task goes straight to the entries of the
    store that are older than 3600 seconds. *)
Lemma refresh_without_stale_bucket m p p1 :
  Server.protocol (Server.self m) = Some p ->
  get_refresh_ids p = ([], p1) ->
  Server._refresh_table m
  = Server.republish
      (storage_iter_older_than (Server.storage (Server.self m)) 3600)
      (Server.settle (Server.storage (Server.self m), p1)
         (Server.record [EvGetRefreshIds; EvIterOlderThan 3600] m)).
Proof.
  intros Hp Hids. unfold Server._refresh_table.
  erewrite bind_inr by (eapply get_refresh_ids_run; eassumption).
  cbn [for_each gather].
  unfold Server.self_storage_iter_older_than, Server.emit.
  unfold bind, ret, modify, gets. cbn [gather]. unfold ret.
  rewrite <- settle_record, record_record. reflexivity.
Qed.

(** C8 (what the code does).  When the lookup for an entry to publish again
    finds no node, [set_digest] raises [ValueError] (line 124) inside the
    loop of line 67: the task ends there, and no [set_digest] is run for the
    entries that come after. *)
Theorem refresh_abandons_republish_when_set_digest_raises
        m p p1 dkey value rest n0 nearest h :
  let spider := {| sp_node := Node.target dkey; sp_peers := n0 :: nearest;
                   sp_ksize := Server.ksize (Server.self m);
                   sp_alpha := Server.alpha (Server.self m) |} in
  Server.protocol (Server.self m) = Some p ->
  get_refresh_ids p = ([], p1) ->
  storage_iter_older_than (Server.storage (Server.self m)) 3600
  = (dkey, value) :: rest ->
  router_find_neighbors p1 (Node.target dkey) None = n0 :: nearest ->
  node_spider_find spider (Server.storage (Server.self m), p1) = ([], h) ->
  Server._refresh_table m
  = (inl (ValueError "max() arg is an empty sequence"),
     Server.settle h
       (Server.record
          ([EvGetRefreshIds; EvIterOlderThan 3600]
           ++ lookup_events dkey spider) m)).
Proof.
  intros spider Hp Hids Hold Hnear Hfind.
  rewrite (refresh_without_stale_bucket m p p1 Hp Hids), Hold.
  erewrite republish_cons_raises
    by (eapply (set_digest_max_of_no_node dkey value _ p1 n0 nearest h);
        [reflexivity | exact Hnear | exact Hfind]).
  rewrite <- settle_record, settle_settle, record_record. reflexivity.
Qed.

End Maintenance.

Section MaintenanceOnSim.

#[local] Existing Instance Sim.hashing.
#[local] Existing Instance Sim.backend.
#[local] Existing Instance Sim.layer.

(** Two entries, x and y, are 4000 seconds old; the only contact no longer
    answers.  The task raises while publishing x, and y is never looked up
    nor stored anywhere. *)
Lemma refresh_abandons_republish_when_set_digest_raises_witness :
  let gone := Sim.peer "002"%byte "b" in
  let net := Sim.Build_Net [gone] [2] [] [] in
  let st := [(["x"%byte], (4000, VInt 1)); (["y"%byte], (4000, VInt 2))] in
  let m := Sim.machine (Sim.server st net) in
  let spider := {| sp_node := Node.target ["x"%byte]; sp_peers := [gone];
                   sp_ksize := 20; sp_alpha := 3 |} in
  Sim.iter_older_than st 3600 = [(["x"%byte], VInt 1); (["y"%byte], VInt 2)]
  /\ Server._refresh_table m
     = (inl (ValueError "max() arg is an empty sequence"),
        Server.record
          [EvGetRefreshIds; EvIterOlderThan 3600;
           EvFindNeighbors (Node.target ["x"%byte]) None;
           EvSpiderNew NodeSpiderCrawl spider;
           EvSpiderFind NodeSpiderCrawl spider;
           EvLog INFO "setting '%s' on %s"] m).
Proof.
  intros gone net st m spider. split; [reflexivity|].
  exact (refresh_abandons_republish_when_set_digest_raises
           (backend:=Sim.backend) (layer:=Sim.layer)
           m net net ["x"%byte] (VInt 1) [(["y"%byte], VInt 2)] gone []
           (st, net) eq_refl eq_refl eq_refl eq_refl eq_refl).
Defined.

End MaintenanceOnSim.

(** * Further properties of the operations *)

(** ** What [get] does on a miss of the local store *)

Section MoreOnGetAndSet.

Context {St P : Type}.
Context {hashing : Hashing}.
Context {backend : StorageBackend St}.
Context {layer : ProtocolLayer St P}.

Implicit Types (m : Server.Machine St P) (h : St * P).

Lemma get_remote_run key m p n0 nearest v h :
  let spider := {| sp_node := Node.target (digest key);
                   sp_peers := n0 :: nearest;
                   sp_ksize := Server.ksize (Server.self m);
                   sp_alpha := Server.alpha (Server.self m) |} in
  Server.protocol (Server.self m) = Some p ->
  storage_get (Server.storage (Server.self m)) (digest key) = VNone ->
  router_find_neighbors p (Node.target (digest key)) None = n0 :: nearest ->
  value_spider_find spider (Server.storage (Server.self m), p) = (v, h) ->
  Server.get key m
  = (inr v,
     Server.settle h
       (Server.record
          [EvLog INFO "Looking up key %s"; EvDigest key;
           EvStorageGet (digest key);
           EvFindNeighbors (Node.target (digest key)) None;
           EvSpiderNew ValueSpiderCrawl spider;
           EvSpiderFind ValueSpiderCrawl spider] m)).
Proof.
  intros spider Hp Hmiss Hnear Hfind. rewrite (get_local_miss key m Hmiss).
  erewrite bind_inr by (apply find_neighbors_run; exact Hp).
  rewrite Hnear.
  erewrite bind_inr by (apply new_spider_run).
  unfold Server.find_value.
  erewrite await_run; [|exact Hp|exact Hfind].
  rewrite !record_record. reflexivity.
Qed.

Lemma get_before_listen_run key m :
  Server.protocol (Server.self m) = None ->
  storage_get (Server.storage (Server.self m)) (digest key) = VNone ->
  Server.get key m
  = (inl (AttributeError "'NoneType' object has no attribute 'router'"),
     Server.record [EvLog INFO "Looking up key %s"; EvDigest key;
                    EvStorageGet (digest key)] m).
Proof.
  intros Hp Hmiss. rewrite (get_local_miss key m Hmiss).
  unfold Server.find_neighbors, Server.self_protocol, bind. simpl.
  rewrite Hp. reflexivity.
Qed.

(** X2.  On a miss of the local store, with neighbors in the routing table,
    [get] returns what the value lookup returns (the value found, or
    [None]); the spider is seeded with all the neighbors the routing table
    gave, and the value found is not written to the local store, which is
    left as the lookup left it. *)
Theorem get_returns_the_answer_of_the_lookup key m p n0 nearest v h :
  let spider := {| sp_node := Node.target (digest key);
                   sp_peers := n0 :: nearest;
                   sp_ksize := Server.ksize (Server.self m);
                   sp_alpha := Server.alpha (Server.self m) |} in
  Server.protocol (Server.self m) = Some p ->
  storage_get (Server.storage (Server.self m)) (digest key) = VNone ->
  router_find_neighbors p (Node.target (digest key)) None = n0 :: nearest ->
  value_spider_find spider (Server.storage (Server.self m), p) = (v, h) ->
  fst (Server.get key m) = inr v
  /\ filter leaves_node (Server.events_of (Server.get key) m)
     = [EvFindNeighbors (Node.target (digest key)) None;
        EvSpiderNew ValueSpiderCrawl spider;
        EvSpiderFind ValueSpiderCrawl spider]
  /\ Server.storage (Server.self (snd (Server.get key m))) = fst h.
Proof.
  intros spider Hp Hmiss Hnear Hfind.
  pose proof (get_remote_run key m p n0 nearest v h Hp Hmiss Hnear Hfind)
    as Hrun.
  rewrite (events_of_record _ _ _ _ (Server.settle h m) Hrun eq_refl).
  rewrite Hrun. repeat split.
Qed.

End MoreOnGetAndSet.
Section MoreOnGetAndSetOnSim.

#[local] Existing Instance Sim.hashing.
#[local] Existing Instance Sim.backend.
#[local] Existing Instance Sim.layer.

Lemma get_returns_the_answer_of_the_lookup_witness :
  let peer := Sim.peer "002"%byte "b" in
  let net := Sim.Build_Net [peer] [] [] [] in
  let m := Sim.machine (Sim.server [] net) in
  let spider := {| sp_node := Node.target ["x"%byte]; sp_peers := [peer];
                   sp_ksize := 20; sp_alpha := 3 |} in
  fst (Server.get (VStr "x") m) = inr VNone
  /\ filter leaves_node (Server.events_of (Server.get (VStr "x")) m)
     = [EvFindNeighbors (Node.target ["x"%byte]) None;
        EvSpiderNew ValueSpiderCrawl spider;
        EvSpiderFind ValueSpiderCrawl spider]
  /\ Server.storage (Server.self (snd (Server.get (VStr "x") m))) = [].
Proof.
  intros peer net m spider.
  exact (get_returns_the_answer_of_the_lookup
           (hashing:=Sim.hashing) (backend:=Sim.backend) (layer:=Sim.layer)
           (VStr "x") m net peer [] VNone ([], net)
           eq_refl eq_refl eq_refl eq_refl).
Defined.

End MoreOnGetAndSetOnSim.

(** ** The operations before [listen] *)

Section BeforeListen.

Context {St P : Type}.
Context {hashing : Hashing}.
Context {backend : StorageBackend St}.
Context {layer : ProtocolLayer St P}.

Implicit Types (m : Server.Machine St P) (h : St * P).

(** X4.  On a server that does not listen yet ([protocol] is [None]) the
    operations that need the routing table or the network raise
    [AttributeError] and send nothing: [set_digest] and the maintenance task
    at once, on the machine as it was; [set] of an allowed value after
    hashing the key; [get] after missing the local store; [bootstrap] of at
    least one address at its first ping. *)
Theorem operations_raise_before_listen key dkey value addr addrs m :
  Server.protocol (Server.self m) = None ->
  Server.set_digest dkey value m
  = (inl (AttributeError "'NoneType' object has no attribute 'router'"), m)
  /\ Server._refresh_table m
     = (inl (AttributeError
               "'NoneType' object has no attribute 'get_refresh_ids'"), m)
  /\ (check_dht_value_type value = true ->
      fst (Server.set key value m)
      = inl (AttributeError "'NoneType' object has no attribute 'router'")
      /\ existsb leaves_node (Server.events_of (Server.set key value) m)
         = false)
  /\ (storage_get (Server.storage (Server.self m)) (digest key) = VNone ->
      fst (Server.get key m)
      = inl (AttributeError "'NoneType' object has no attribute 'router'")
      /\ existsb leaves_node (Server.events_of (Server.get key) m) = false)
  /\ Server.bootstrap (addr :: addrs) m
     = (inl (AttributeError "'NoneType' object has no attribute 'ping'"),
        Server.record
          [EvLog DEBUG "Attempting to bootstrap node with %i initial contacts"]
          m).
Proof.
  intros Hp.
  assert (Hset : forall d m0, Server.protocol (Server.self m0) = None ->
    Server.set_digest d value m0
    = (inl (AttributeError "'NoneType' object has no attribute 'router'"),
       m0)).
  { intros d m0 Hp0.
    unfold Server.set_digest, Server.find_neighbors, Server.self_protocol,
      bind. rewrite Hp0. reflexivity. }
  split; [apply Hset; exact Hp|]. split; [|split; [|split]].
  - unfold Server._refresh_table, Server.protocol_get_refresh_ids,
      Server.self_protocol, bind. rewrite Hp. reflexivity.
  - intros Hcheck.
    assert (Hrun :
      Server.set key value m
      = (inl (AttributeError "'NoneType' object has no attribute 'router'"),
         Server.record
           [EvLog INFO "setting '%s' = '%s' on network"; EvDigest key] m)).
    { rewrite (set_runs_set_digest key value m Hcheck).
      apply Hset. exact Hp. }
    rewrite (events_of_record _ _ _ _ _ Hrun eq_refl), Hrun. split; reflexivity.
  - intros Hmiss.
    pose proof (get_before_listen_run key m Hp Hmiss) as Hrun.
    rewrite (events_of_record _ _ _ _ _ Hrun eq_refl), Hrun. split; reflexivity.
  - unfold Server.bootstrap, Server.log, Server.emit.
    unfold bind at 1. unfold modify at 1.
    simpl map. simpl gather.
    unfold Server.bootstrap_node at 1, Server.protocol_ping, Server.await,
      Server.self_protocol.
    unfold bind, gets. simpl. rewrite Hp. reflexivity.
Qed.

End BeforeListen.

Section BeforeListenOnSim.

#[local] Existing Instance Sim.hashing.
#[local] Existing Instance Sim.backend.
#[local] Existing Instance Sim.layer.

Lemma operations_raise_before_listen_witness :
  let m := Sim.machine (Server.__init__ None None None None 7) in
  Server.set_digest ["x"%byte] (VInt 1) m
  = (inl (AttributeError "'NoneType' object has no attribute 'router'"), m)
  /\ fst (Server.set (VStr "x") (VInt 1) m)
     = inl (AttributeError "'NoneType' object has no attribute 'router'")
  /\ fst (Server.get (VStr "x") m)
     = inl (AttributeError "'NoneType' object has no attribute 'router'")
  /\ fst (Server.bootstrap [("b", 8468)] m)
     = inl (AttributeError "'NoneType' object has no attribute 'ping'").
Proof.
  intros m.
  destruct (operations_raise_before_listen
              (hashing:=Sim.hashing) (backend:=Sim.backend) (layer:=Sim.layer)
              (VStr "x") ["x"%byte] (VInt 1) ("b", 8468) [] m eq_refl)
    as [Hdigest [_ [Hset [Hget Hboot]]]].
  split; [exact Hdigest|]. split; [exact (proj1 (Hset eq_refl))|].
  split; [exact (proj1 (Hget eq_refl))|].
  exact (f_equal fst Hboot).
Defined.

End BeforeListenOnSim.

(** ** The maintenance task, when no exception ends it *)

Section MoreOnMaintenance.

Context {St P : Type}.
Context {hashing : Hashing}.
Context {backend : StorageBackend St}.
Context {layer : ProtocolLayer St P}.

Implicit Types (m : Server.Machine St P) (h : St * P).

Lemma for_each_stale_id_run ids : forall m p,
  Server.protocol (Server.self m) = Some p ->
  let spider :=
    refresh_spider (Server.ksize (Server.self m))
                   (Server.alpha (Server.self m)) p in
  for_each ids (fun node_id =>
    (a <- gets (fun m => Server.alpha (Server.self m)) ;;
     nearest <- Server.find_neighbors (Node.target node_id) (Some a) ;;
     spider <- Server.new_spider NodeSpiderCrawl (Node.target node_id)
                                 nearest ;;
     ret (Server.find_nodes spider))%py) m
  = (inr (map (fun node_id => Server.find_nodes (spider node_id)) ids),
     Server.record
       (flat_map (fun node_id => refresh_spider_events (spider node_id)) ids)
       m).
Proof.
  induction ids as [|node_id rest IH]; intros m p Hp spider.
  - simpl. now rewrite record_nil.
  - simpl for_each.
    unfold bind at 1. unfold bind at 1. unfold gets at 1.
    erewrite bind_inr by (apply find_neighbors_run; exact Hp).
    erewrite bind_inr by (apply new_spider_run).
    unfold ret at 1.
    erewrite bind_inr by (apply (IH _ p); exact Hp).
    unfold ret. simpl. rewrite !record_record. reflexivity.
Qed.

Lemma gather_find_nodes_run spiders : forall m p,
  Server.protocol (Server.self m) = Some p ->
  gather (map Server.find_nodes spiders) m
  = (inr (fst (spider_calls spiders (Server.storage (Server.self m), p))),
     Server.settle
       (snd (spider_calls spiders (Server.storage (Server.self m), p)))
       (Server.record (map (EvSpiderFind NodeSpiderCrawl) spiders) m)).
Proof.
  induction spiders as [|sp rest IH]; intros m p Hp; simpl.
  - rewrite record_nil, (settle_same m p Hp). reflexivity.
  - destruct (node_spider_find sp (Server.storage (Server.self m), p))
      as [r [st1 p1]] eqn:Hfind.
    erewrite bind_inr
      by (unfold Server.find_nodes; eapply await_run; eassumption).
    erewrite bind_inr by (apply (IH _ p1); reflexivity).
    simpl.
    destruct (spider_calls rest (st1, p1)) as [rs h2].
    unfold ret. simpl.
    rewrite <- settle_record, settle_settle, record_record. reflexivity.
Qed.

(** X6.  The maintenance task asks the protocol for the stale bucket ids,
    then, for each id in order, reads its alpha nearest neighbors from the
    routing table and makes a [NodeSpiderCrawl] seeded with them; only then
    are the lookups run, one per id, so that every spider is seeded from the
    routing table as it was before any of these lookups.  After the lookups
    it publishes again the entries that the store, as the lookups left it,
    reports older than 3600 seconds. *)
Theorem refresh_looks_up_every_stale_bucket m p ids p1 :
  Server.protocol (Server.self m) = Some p ->
  get_refresh_ids p = (ids, p1) ->
  let spiders :=
    map (refresh_spider (Server.ksize (Server.self m))
                        (Server.alpha (Server.self m)) p1) ids in
  let answers := spider_calls spiders (Server.storage (Server.self m), p1) in
  Server._refresh_table m
  = Server.republish
      (storage_iter_older_than (fst (snd answers)) 3600)
      (Server.settle (snd answers)
         (Server.record
            (EvGetRefreshIds
             :: flat_map refresh_spider_events spiders
             ++ map (EvSpiderFind NodeSpiderCrawl) spiders
             ++ [EvIterOlderThan 3600]) m)).
Proof.
  intros Hp Hids spiders answers. unfold Server._refresh_table.
  erewrite bind_inr by (eapply get_refresh_ids_run; eassumption).
  erewrite bind_inr by (apply (for_each_stale_id_run ids _ p1); reflexivity).
  rewrite <- map_map with (g := Server.find_nodes).
  erewrite bind_inr by (apply (gather_find_nodes_run _ _ p1); reflexivity).
  unfold Server.self_storage_iter_older_than, Server.emit.
  unfold bind, modify, gets. simpl Server.storage. simpl Server.ksize.
  simpl Server.alpha. fold spiders. fold answers.
  rewrite flat_map_concat_map, <- map_map with (g := refresh_spider_events),
    <- flat_map_concat_map.
  fold spiders.
  f_equal.
  rewrite <- !settle_record, !settle_settle, !record_record.
  reflexivity.
Qed.

End MoreOnMaintenance.

Section MoreOnMaintenanceOnSim.

#[local] Existing Instance Sim.hashing.
#[local] Existing Instance Sim.backend.
#[local] Existing Instance Sim.layer.

(** One stale bucket id, 0x10; the routing table holds the contacts 0x02 and
    0x7a, which both answer; the store is empty. *)
Lemma refresh_looks_up_every_stale_bucket_witness :
  let b := Sim.peer "002"%byte "b" in
  let c := Sim.peer "z"%byte "c" in
  let net := Sim.Build_Net [b; c] [] [["016"%byte]] [] in
  let m := Sim.machine (Sim.server [] net) in
  let spider := {| sp_node := Node.target ["016"%byte]; sp_peers := [b; c];
                   sp_ksize := 20; sp_alpha := 3 |} in
  Server._refresh_table m
  = (inr tt,
     Server.record
       [EvGetRefreshIds;
        EvFindNeighbors (Node.target ["016"%byte]) (Some 3);
        EvSpiderNew NodeSpiderCrawl spider;
        EvSpiderFind NodeSpiderCrawl spider;
        EvIterOlderThan 3600] m).
Proof.
  intros b c net m spider.
  exact (refresh_looks_up_every_stale_bucket
           (backend:=Sim.backend) (layer:=Sim.layer)
           m net [["016"%byte]] net eq_refl eq_refl).
Defined.

End MoreOnMaintenanceOnSim.

(** ** The refresh timer *)

Section RefreshTimer.

Context {St P : Type}.
Context {hashing : Hashing}.
Context {backend : StorageBackend St}.
Context {layer : ProtocolLayer St P}.

Implicit Types (m : Server.Machine St P).

Lemma fire_timer_run t rest m :
  Server.timers m = t :: rest ->
  Server.fire_timer m
  = Server.refresh_table
      {| Server.self := Server.self m; Server.ready := Server.ready m;
         Server.timers := rest; Server.trace := Server.trace m |}.
Proof.
  intros Ht. unfold Server.fire_timer. rewrite Ht.
  destruct t as [d []]. reflexivity.
Qed.

Lemma fire_timers_run n : forall m,
  Server.timers m <> [] ->
  exists m',
    fire_timers n m = (inr tt, m')
    /\ List.length (Server.timers m') = List.length (Server.timers m)
    /\ Server.ready m' = (Server.ready m ++ repeat Co_refresh_table n)%list
    /\ Server.timers m' <> []
    /\ (n <> O ->
        Server.refresh_loop (Server.self m')
        = Some {| delay := 3600; callback := Cb_refresh_table |}
        /\ last (Server.timers m') {| delay := 0; callback := Cb_refresh_table |}
           = {| delay := 3600; callback := Cb_refresh_table |}).
Proof.
  induction n as [|n IH]; intros m Hm.
  - exists m. simpl. rewrite app_nil_r. repeat split; auto; congruence.
  - destruct (Server.timers m) as [|t rest] eqn:Ht; [congruence|].
    simpl fire_timers.
    erewrite bind_inr
      by (rewrite (fire_timer_run t rest m Ht); apply refresh_table_run).
    match goal with |- context [fire_timers n ?m1] =>
      destruct (IH m1) as [m' [Hrun [Hlen [Hready [Hne Hlast]]]]]
    end.
    { simpl. destruct rest; discriminate. }
    exists m'. split; [exact Hrun|]. simpl in Hlen, Hready.
    split; [rewrite Hlen, length_app; simpl; lia|].
    split; [rewrite Hready, <- app_assoc; reflexivity|].
    split; [exact Hne|]. intros _.
    destruct n as [|n'].
    + simpl in Hrun. injection Hrun as <-. simpl.
      split; [reflexivity | apply last_last].
    + apply Hlast. discriminate.
Qed.


End RefreshTimer.

(** ** The state file and [listen] *)

Section StateFile.

Context {St P : Type}.
Context {hashing : Hashing}.
Context {backend : StorageBackend St}.
Context {layer : ProtocolLayer St P}.
Context {endpoint : ProtocolClass St P}.

Implicit Types (m : Server.Machine St P) (pr : Lifecycle.Process St P).

Lemma lift_run {A : Type} (c : Server.Py A) pr r m' :
  c (Lifecycle.machine pr) = (r, m') ->
  Lifecycle.lift c pr = (r, Lifecycle.with_machine (fun _ => m') pr).
Proof. intros H. unfold Lifecycle.lift. now rewrite H. Qed.

Lemma bootstrappable_neighbors_run m p :
  Server.protocol (Server.self m) = Some p ->
  Lifecycle.bootstrappable_neighbors m
  = (inr (map (fun n => (Node.ip n, Node.port n))
              (router_find_neighbors p (Server.node (Server.self m)) None)),
     Server.record [EvFindNeighbors (Server.node (Server.self m)) None] m).
Proof.
  intros Hp. unfold Lifecycle.bootstrappable_neighbors.
  unfold bind at 1. unfold gets at 1.
  erewrite bind_inr by (apply find_neighbors_run; exact Hp).
  reflexivity.
Qed.

Lemma save_state_run fname pr p :
  Server.protocol (Server.self (Lifecycle.machine pr)) = Some p ->
  let s := Server.self (Lifecycle.machine pr) in
  let neighbors := router_find_neighbors p (Server.node s) None in
  Lifecycle.save_state fname pr
  = (inr tt,
     {| Lifecycle.machine :=
          Server.record
            ([EvLog INFO "Saving state to %s";
              EvFindNeighbors (Server.node s) None]
             ++ match neighbors with
                | [] =>
                    [EvLog WARNING
                           "No known neighbors, so not writing to cache."]
                | _ :: _ => []
                end) (Lifecycle.machine pr);
        Lifecycle.transport := Lifecycle.transport pr;
        Lifecycle.save_state_loop := Lifecycle.save_state_loop pr;
        Lifecycle.save_timers := Lifecycle.save_timers pr;
        Lifecycle.files :=
          match neighbors with
          | [] => Lifecycle.files pr
          | _ :: _ =>
              write_file fname (Lifecycle.state_of s neighbors)
                         (Lifecycle.files pr)
          end |}).
Proof.
  intros Hp s neighbors. unfold Lifecycle.save_state.
  erewrite bind_inr by (apply lift_run; reflexivity).
  unfold bind at 1. unfold gets at 1.
  erewrite bind_inr
    by (apply lift_run; apply bootstrappable_neighbors_run; exact Hp).
  cbn [Lifecycle.machine Lifecycle.with_machine Server.self Server.record].
  fold s. fold neighbors. clearbody neighbors.
  destruct neighbors as [|n0 rest]; cbn [map].
  - erewrite lift_run by reflexivity.
    unfold Lifecycle.with_machine.
    cbn [Lifecycle.machine Lifecycle.transport Lifecycle.save_state_loop
         Lifecycle.save_timers Lifecycle.files].
    rewrite !record_record. reflexivity.
  - unfold modify, Lifecycle.with_machine.
    cbn [Lifecycle.machine Lifecycle.transport Lifecycle.save_state_loop
         Lifecycle.save_timers Lifecycle.files].
    rewrite !record_record, app_nil_r. reflexivity.
Qed.

Lemma bootstrappable_neighbors_before_listen m :
  Server.protocol (Server.self m) = None ->
  Lifecycle.bootstrappable_neighbors m
  = (inl (AttributeError "'NoneType' object has no attribute 'router'"), m).
Proof.
  intros Hp.
  unfold Lifecycle.bootstrappable_neighbors, Server.find_neighbors,
    Server.self_protocol, bind, gets.
  rewrite Hp. reflexivity.
Qed.

Lemma save_state_before_listen_run fname pr :
  Server.protocol (Server.self (Lifecycle.machine pr)) = None ->
  Lifecycle.save_state fname pr
  = (inl (AttributeError "'NoneType' object has no attribute 'router'"),
     Lifecycle.with_machine
       (Server.record [EvLog INFO "Saving state to %s"]) pr).
Proof.
  intros Hp. unfold Lifecycle.save_state.
  erewrite bind_inr by (apply lift_run; reflexivity).
  unfold bind at 1. unfold gets at 1.
  erewrite bind_inl
    by (apply lift_run; apply bootstrappable_neighbors_before_listen;
        exact Hp).
  reflexivity.
Qed.

Lemma save_state_regularly_run fname frequency pr p :
  Server.protocol (Server.self (Lifecycle.machine pr)) = Some p ->
  let pr1 := snd (Lifecycle.save_state fname pr) in
  let h := {| save_delay := frequency; save_fname := fname;
              save_frequency := frequency |} in
  Lifecycle.save_state_regularly fname frequency pr
  = (inr tt,
     {| Lifecycle.machine := Lifecycle.machine pr1;
        Lifecycle.transport := Lifecycle.transport pr1;
        Lifecycle.save_state_loop := Some h;
        Lifecycle.save_timers := (Lifecycle.save_timers pr1 ++ [h])%list;
        Lifecycle.files := Lifecycle.files pr1 |}).
Proof.
  intros Hp pr1 h. subst pr1. unfold Lifecycle.save_state_regularly.
  erewrite bind_inr by (apply (save_state_run fname pr p Hp)).
  rewrite (save_state_run fname pr p Hp). reflexivity.
Qed.

Lemma write_file_same fname data (fs : Files) :
  write_file fname data fs fname = Some data.
Proof. unfold write_file. now rewrite String.eqb_refl. Qed.

Lemma write_file_other fname data (fs : Files) name :
  name <> fname -> write_file fname data fs name = fs name.
Proof.
  intros Hne. unfold write_file. apply String.eqb_neq in Hne. now rewrite Hne.
Qed.

(** X10.  On a listening server, and taking the file to open for writing,
    [save_state] raises nothing and writes the file exactly when the routing table knows a neighbor of the node: the
    file then holds ksize, alpha, the id of the node and the (ip, port)
    pair of every neighbor, in the order of the routing table; with no
    neighbor the file keeps what it had.  No other file changes, the server
    is left as it was, and nothing is sent or stored. *)
Theorem save_state_writes_the_known_neighbors fname pr p :
  Server.protocol (Server.self (Lifecycle.machine pr)) = Some p ->
  let s := Server.self (Lifecycle.machine pr) in
  let neighbors := router_find_neighbors p (Server.node s) None in
  let pr' := snd (Lifecycle.save_state fname pr) in
  fst (Lifecycle.save_state fname pr) = inr tt
  /\ Lifecycle.files pr' fname
     = match neighbors with
       | [] => Lifecycle.files pr fname
       | _ :: _ =>
           Some {| saved_ksize := Server.ksize s;
                   saved_alpha := Server.alpha s;
                   saved_id := Node.id (Server.node s);
                   saved_neighbors :=
                     map (fun n => (Node.ip n, Node.port n)) neighbors |}
       end
  /\ (forall name, name <> fname ->
      Lifecycle.files pr' name = Lifecycle.files pr name)
  /\ Server.self (Lifecycle.machine pr') = s
  /\ Lifecycle.save_timers pr' = Lifecycle.save_timers pr
  /\ exists evs,
       Server.trace (Lifecycle.machine pr')
       = (Server.trace (Lifecycle.machine pr) ++ evs)%list
       /\ Forall (fun e => transmits e = false /\ writes_storage e = false)
                 evs.
Proof.
  intros Hp s neighbors pr'. subst pr'.
  rewrite (save_state_run fname pr p Hp). fold s. fold neighbors.
  clearbody neighbors.
  cbn [fst snd Lifecycle.machine Lifecycle.files Lifecycle.save_timers
       Server.record Server.self Server.trace].
  split; [reflexivity|].
  split.
  { destruct neighbors; [reflexivity|]. apply write_file_same. }
  split.
  { intros name Hne. destruct neighbors; [reflexivity|].
    now apply write_file_other. }
  split; [reflexivity|]. split; [reflexivity|].
  eexists. split; [reflexivity|].
  destruct neighbors; repeat constructor.
Qed.

(** X11.  Before [listen], [save_state] and [save_state_regularly] raise
    the [AttributeError] of [self.protocol.router] on [None]; no file is
    written and [save_state_regularly] sets no timer, so that the periodic
    saving never starts. *)
Theorem saving_state_raises_before_listen fname frequency pr :
  Server.protocol (Server.self (Lifecycle.machine pr)) = None ->
  let e := AttributeError "'NoneType' object has no attribute 'router'" in
  let pr' := snd (Lifecycle.save_state_regularly fname frequency pr) in
  fst (Lifecycle.save_state fname pr) = inl e
  /\ Lifecycle.files (snd (Lifecycle.save_state fname pr))
     = Lifecycle.files pr
  /\ fst (Lifecycle.save_state_regularly fname frequency pr) = inl e
  /\ Lifecycle.files pr' = Lifecycle.files pr
  /\ Lifecycle.save_timers pr' = Lifecycle.save_timers pr
  /\ Lifecycle.save_state_loop pr' = Lifecycle.save_state_loop pr.
Proof.
  intros Hp e pr'. subst pr'. unfold Lifecycle.save_state_regularly.
  erewrite bind_inl by (apply save_state_before_listen_run; exact Hp).
  rewrite (save_state_before_listen_run fname pr Hp).
  repeat split.
Qed.

Lemma fire_save_timers_run fname frequency p (s : Server.t St P) n :
  Server.protocol s = Some p ->
  let neighbors := router_find_neighbors p (Server.node s) None in
  let h := {| save_delay := frequency; save_fname := fname;
              save_frequency := frequency |} in
  let evs :=
    ([EvLog INFO "Saving state to %s"; EvFindNeighbors (Server.node s) None]
     ++ match neighbors with
        | [] => [EvLog WARNING "No known neighbors, so not writing to cache."]
        | _ :: _ => []
        end)%list in
  forall pr,
  Server.self (Lifecycle.machine pr) = s ->
  Lifecycle.save_timers pr = [h] ->
  exists pr',
    Lifecycle.fire_save_timers n pr = (inr tt, pr')
    /\ Server.self (Lifecycle.machine pr') = s
    /\ Lifecycle.save_timers pr' = [h]
    /\ Lifecycle.save_state_loop pr'
       = match n with
         | O => Lifecycle.save_state_loop pr
         | S _ => Some h
         end
    /\ (forall name, name <> fname ->
        Lifecycle.files pr' name = Lifecycle.files pr name)
    /\ Lifecycle.files pr' fname
       = match n, neighbors with
         | S _, _ :: _ => Some (Lifecycle.state_of s neighbors)
         | _, _ => Lifecycle.files pr fname
         end
    /\ Server.trace (Lifecycle.machine pr')
       = (Server.trace (Lifecycle.machine pr) ++ List.concat (repeat evs n))%list.
Proof.
  intros Hp neighbors h evs.
  induction n as [|n IH]; intros pr Hs Ht.
  - exists pr. simpl. rewrite app_nil_r. repeat split; auto.
  - simpl Lifecycle.fire_save_timers.
    unfold Lifecycle.fire_save_timer at 1. unfold bind at 1.
    rewrite Ht. cbn [save_fname save_frequency h].
    match goal with |- context [Lifecycle.save_state_regularly _ _ ?pr0] =>
      assert (Hp0 : Server.protocol (Server.self (Lifecycle.machine pr0))
                    = Some p) by (simpl; rewrite Hs; exact Hp);
      rewrite (save_state_regularly_run fname frequency pr0 p Hp0);
      rewrite (save_state_run fname pr0 p Hp0)
    end.
    cbn [snd Lifecycle.machine Lifecycle.transport Lifecycle.save_timers
         Lifecycle.files app].
    rewrite Hs. fold neighbors. fold evs. fold h.
    match goal with |- context [Lifecycle.fire_save_timers n ?pr1] =>
      destruct (IH pr1) as [pr' [Hrun [Hs' [Ht' [Hl [Ho [Hf Htr]]]]]]];
        [simpl; exact Hs | reflexivity |]
    end.
    exists pr'. split; [exact Hrun|].
    cbn [Lifecycle.machine Lifecycle.files Lifecycle.save_state_loop
         Server.record Server.trace] in Hl, Ho, Hf, Htr.
    split; [exact Hs'|]. split; [exact Ht'|].
    split; [destruct n; exact Hl|].
    split.
    { intros name Hne. rewrite (Ho name Hne).
      destruct neighbors; [reflexivity | now apply write_file_other]. }
    split.
    { rewrite Hf. destruct n, neighbors; try reflexivity.
      apply write_file_same. }
    rewrite Htr. simpl List.concat. rewrite <- app_assoc. reflexivity.
Qed.


End StateFile.

Section StateFileOnSim.

#[local] Existing Instance Sim.hashing.
#[local] Existing Instance Sim.backend.
#[local] Existing Instance Sim.layer.

Lemma save_state_writes_the_known_neighbors_witness :
  let a := Sim.peer "002"%byte "a" in
  let b := Sim.peer "003"%byte "b" in
  let net := Sim.Build_Net [a; b] [] [] [] in
  let pr := Lifecycle.start (Sim.server [] net) in
  let pr' := snd (Lifecycle.save_state "cache" pr) in
  fst (Lifecycle.save_state "cache" pr) = inr tt
  /\ Lifecycle.files pr' "cache"
     = Some {| saved_ksize := 20; saved_alpha := 3;
               saved_id := ["001"%byte];
               saved_neighbors :=
                 [(Some "a", Some 8468); (Some "b", Some 8468)] |}
  /\ Lifecycle.files pr' "other" = None.
Proof.
  intros a b net pr pr'.
  destruct (save_state_writes_the_known_neighbors
              (layer:=Sim.layer) "cache" pr net eq_refl)
    as [Hret [Hfile [Hother _]]].
  split; [exact Hret|]. split; [exact Hfile|].
  apply (Hother "other"). discriminate.
Defined.

Lemma saving_state_raises_before_listen_witness :
  let s := Server.mk 20 3 [] (Node.target ["001"%byte]) None None in
  let pr := Lifecycle.start (St:=Sim.Storage) (P:=Sim.Net) s in
  let pr' := snd (Lifecycle.save_state_regularly "cache" 600 pr) in
  fst (Lifecycle.save_state_regularly "cache" 600 pr)
  = inl (AttributeError "'NoneType' object has no attribute 'router'")
  /\ Lifecycle.save_timers pr' = []
  /\ Lifecycle.save_state_loop pr' = None.
Proof.
  intros s pr pr'.
  destruct (saving_state_raises_before_listen
              (layer:=Sim.layer) "cache" 600 pr eq_refl)
    as [_ [_ [Hret [_ [Htimers Hloop]]]]].
  split; [exact Hret|]. split; [exact Htimers | exact Hloop].
Defined.


End StateFileOnSim.

(** ** [listen] *)

Section Listening.

Context {St P : Type}.
Context {hashing : Hashing}.
Context {backend : StorageBackend St}.
Context {layer : ProtocolLayer St P}.
Context {endpoint : ProtocolClass St P}.

Implicit Types (m : Server.Machine St P) (pr : Lifecycle.Process St P).

Lemma listen_run port interface pr :
  let s := Server.self (Lifecycle.machine pr) in
  let h := {| delay := 3600; callback := Cb_refresh_table |} in
  Lifecycle.listen port interface pr
  = (inr tt,
     {| Lifecycle.machine :=
          {| Server.self :=
               Server.set_refresh_loop (Some h)
                 (Server.set_protocol
                    (Some (Lifecycle._create_protocol s)) s);
             Server.ready :=
               (Server.ready (Lifecycle.machine pr)
                ++ [Co_refresh_table])%list;
             Server.timers :=
               (Server.timers (Lifecycle.machine pr) ++ [h])%list;
             Server.trace :=
               (Server.trace (Lifecycle.machine pr)
                ++ [EvLog INFO "Node %i listening on %s:%i";
                    EvLog DEBUG "Refreshing routing table";
                    EvEnsureFuture Co_refresh_table;
                    EvCallLater h])%list |};
        Lifecycle.transport := Some (interface, port);
        Lifecycle.save_state_loop := Lifecycle.save_state_loop pr;
        Lifecycle.save_timers := Lifecycle.save_timers pr;
        Lifecycle.files := Lifecycle.files pr |}).
Proof.
  intros s h. unfold Lifecycle.listen.
  erewrite bind_inr by (apply lift_run; reflexivity).
  unfold bind at 1. unfold modify at 1.
  erewrite lift_run by (apply refresh_table_run).
  unfold Lifecycle.with_machine. simpl.
  rewrite <- app_assoc. reflexivity.
Qed.


End Listening.
